(** * Container security posture probes (package [evaluate])

    A shallow embedding of the namespace, Seccomp, SELinux and AppArmor
    probes and of the kernel configuration resolver, together with the
    parts of the Go standard library they call ([strings], [unicode],
    [unicode/utf8], [bufio]).  Go strings are byte sequences: they are
    modelled as [string], whose characters are 8-bit [ascii] values. *)

From Stdlib Require Import String Ascii List ZArith NArith Lia Bool.
From Stdlib Require Import DecimalString.
Import ListNotations.

Open Scope list_scope.
Open Scope string_scope.

(** ** Byte-level helpers on Go strings *)

Definition byte (c : ascii) : Z := Z.of_N (N_of_ascii c).

(** [s[n:]] *)
Fixpoint drop (n : nat) (s : string) : string :=
  match n, s with
  | O, _ => s
  | S _, EmptyString => EmptyString
  | S n', String _ t => drop n' t
  end.

(** [s[:n]] *)
Fixpoint take (n : nat) (s : string) : string :=
  match n, s with
  | O, _ => EmptyString
  | S _, EmptyString => EmptyString
  | S n', String c t => String c (take n' t)
  end.

(** [s[lo:hi]] *)
Definition slice (lo hi : nat) (s : string) : string :=
  take (hi - lo) (drop lo s).

(** [bytes.IndexByte] *)
Fixpoint IndexByte (s : string) (c : ascii) : option nat :=
  match s with
  | EmptyString => None
  | String d t =>
      if Ascii.eqb d c then Some O
      else match IndexByte t c with
           | Some i => Some (S i)
           | None => None
           end
  end.

(** ** unicode/utf8 *)

Module utf8.

Local Open Scope Z_scope.

Definition RuneError : Z := 0xFFFD.
Definition RuneSelf : Z := 0x80.
Definition UTFMax : nat := 4.

Definition maskx : Z := 0x3F.
Definition mask2 : Z := 0x1F.
Definition mask3 : Z := 0x0F.
Definition mask4 : Z := 0x07.
Definition locb : Z := 0x80.
Definition hicb : Z := 0xBF.

Definition xx : Z := 0xF1.
Definition as_ : Z := 0xF0.
Definition s1 : Z := 0x02.
Definition s2 : Z := 0x13.
Definition s3 : Z := 0x03.
Definition s4 : Z := 0x23.
Definition s5 : Z := 0x34.
Definition s6 : Z := 0x04.
Definition s7 : Z := 0x44.

(** The table [first]: information about the first byte of an encoding. *)
Definition first (b : Z) : Z :=
  if b <? 0x80 then as_
  else if b <? 0xC2 then xx
  else if b <? 0xE0 then s1
  else if b =? 0xE0 then s2
  else if b <? 0xED then s3
  else if b =? 0xED then s4
  else if b <? 0xF0 then s3
  else if b =? 0xF0 then s5
  else if b <? 0xF4 then s6
  else if b =? 0xF4 then s7
  else xx.

(** The table [acceptRanges]: lowest and highest value of the second byte. *)
Definition acceptRanges (i : Z) : Z * Z :=
  if i =? 0 then (locb, hicb)
  else if i =? 1 then (0xA0, hicb)
  else if i =? 2 then (locb, 0x9F)
  else if i =? 3 then (0x90, hicb)
  else if i =? 4 then (locb, 0x8F)
  else (0, 0).

Definition RuneStart (b : Z) : bool := negb (Z.land b 0xC0 =? 0x80).

(** [utf8.DecodeRuneInString]: the first rune of [s] and its width in
    bytes; an invalid encoding gives [(RuneError, 1)]. *)
Definition DecodeRuneInString (s : string) : Z * nat :=
  match s with
  | EmptyString => (RuneError, 0%nat)
  | String c0 t0 =>
      let b0 := byte c0 in
      let x := first b0 in
      if as_ <=? x then
        ((if Z.testbit x 0 then RuneError else b0), 1%nat)
      else
        let sz := Z.land x 7 in
        let accept := acceptRanges (Z.shiftr x 4) in
        if Z.of_nat (String.length s) <? sz then (RuneError, 1%nat)
        else
          match t0 with
          | EmptyString => (RuneError, 1%nat)
          | String c1 t1 =>
              let b1 := byte c1 in
              if (b1 <? fst accept) || (snd accept <? b1) then (RuneError, 1%nat)
              else if sz <=? 2 then
                (Z.lor (Z.shiftl (Z.land b0 mask2) 6) (Z.land b1 maskx), 2%nat)
              else
                match t1 with
                | EmptyString => (RuneError, 1%nat)
                | String c2 t2 =>
                    let b2 := byte c2 in
                    if (b2 <? locb) || (hicb <? b2) then (RuneError, 1%nat)
                    else if sz <=? 3 then
                      (Z.lor (Z.lor (Z.shiftl (Z.land b0 mask3) 12)
                                    (Z.shiftl (Z.land b1 maskx) 6))
                             (Z.land b2 maskx), 3%nat)
                    else
                      match t2 with
                      | EmptyString => (RuneError, 1%nat)
                      | String c3 _ =>
                          let b3 := byte c3 in
                          if (b3 <? locb) || (hicb <? b3) then (RuneError, 1%nat)
                          else
                            (Z.lor (Z.lor (Z.lor (Z.shiftl (Z.land b0 mask4) 18)
                                                 (Z.shiftl (Z.land b1 maskx) 12))
                                          (Z.shiftl (Z.land b2 maskx) 6))
                                   (Z.land b3 maskx), 4%nat)
                      end
                end
          end
  end.

(** The loop of [DecodeLastRuneInString] that walks back from [start]
    to the nearest byte that can start a rune, stopping below [lim]; a
    walk that leaves the string ends at index 0 (Go's [start < 0]). *)
Fixpoint walkBack (s : string) (lim start : nat) {struct start} : nat :=
  if Nat.ltb start lim then start
  else
    match String.get start s with
    | Some c =>
        if RuneStart (byte c) then start
        else match start with
             | O => O
             | S start' => walkBack s lim start'
             end
    | None => start
    end.

(** [utf8.DecodeLastRuneInString]: the last rune of [s] and its width. *)
Definition DecodeLastRuneInString (s : string) : Z * nat :=
  let e := String.length s in
  match e with
  | O => (RuneError, 0%nat)
  | S last =>
      match String.get last s with
      | None => (RuneError, 0%nat)
      | Some c =>
          let r := byte c in
          if r <? RuneSelf then (r, 1%nat)
          else
            let lim := (e - UTFMax)%nat in
            let start :=
              match last with
              | O => O
              | S p => walkBack s lim p
              end in
            let '(r', size) := DecodeRuneInString (slice start e s) in
            if Nat.eqb (start + size) e then (r', size) else (RuneError, 1%nat)
      end
  end.

End utf8.

(** ** unicode *)

Module unicode.

Local Open Scope Z_scope.

Definition MaxLatin1 : Z := 0xFF.

(** [unicode.IsSpace]: the Latin-1 spaces, then the ranges of the
    [White_Space] table above Latin-1. *)
Definition IsSpace (r : Z) : bool :=
  if r <=? MaxLatin1 then
    (r =? 0x09) || (r =? 0x0A) || (r =? 0x0B) || (r =? 0x0C) || (r =? 0x0D)
    || (r =? 0x20) || (r =? 0x85) || (r =? 0xA0)
  else
    (r =? 0x1680) || ((0x2000 <=? r) && (r <=? 0x200A))
    || ((0x2028 <=? r) && (r <=? 0x2029)) || (r =? 0x202F) || (r =? 0x205F)
    || (r =? 0x3000).

End unicode.

(** ** strings *)

Module strings.

(** [strings.HasPrefix(s, prefix)] *)
Definition HasPrefix (s prefix : string) : bool := String.prefix prefix s.

(** [strings.TrimPrefix(s, prefix)] *)
Definition TrimPrefix (s prefix : string) : string :=
  if HasPrefix s prefix then drop (String.length prefix) s else s.

(** [strings.Contains(s, substr)]: [substr] occurs at some index of [s]. *)
Fixpoint Contains (s substr : string) : bool :=
  HasPrefix s substr
  || match s with
     | EmptyString => false
     | String _ t => Contains t substr
     end.

(** [for _, r := range s]: the runes of [s], each with the bytes it was
    decoded from. *)
Fixpoint runes (fuel : nat) (s : string) : list (Z * string) :=
  match fuel with
  | O => []
  | S fuel' =>
      match s with
      | EmptyString => []
      | String _ _ =>
          let '(r, size) := utf8.DecodeRuneInString s in
          (r, take size s) :: runes fuel' (drop size s)
      end
  end.

(** The loop of [strings.FieldsFunc]; [start] holds the bytes of the field
    being read, if any. *)
Fixpoint fieldsLoop (f : Z -> bool) (rs : list (Z * string))
    (start : option string) : list string :=
  match rs with
  | [] => match start with
          | Some fld => [fld]
          | None => []
          end
  | (r, bs) :: rs' =>
      if f r then
        match start with
        | Some fld => fld :: fieldsLoop f rs' None
        | None => fieldsLoop f rs' None
        end
      else
        match start with
        | Some fld => fieldsLoop f rs' (Some (fld ++ bs))
        | None => fieldsLoop f rs' (Some bs)
        end
  end.

Definition FieldsFunc (s : string) (f : Z -> bool) : list string :=
  fieldsLoop f (runes (String.length s) s) None.

(** [strings.Fields(s)]: the ASCII fast path and the general path agree, so
    the general one stands for both. *)
Definition Fields (s : string) : list string := FieldsFunc s unicode.IsSpace.

(** [indexFunc(s, f, false)]: index of the first rune not satisfying [f]. *)
Fixpoint indexNotFunc (fuel : nat) (f : Z -> bool) (s : string) : option nat :=
  match fuel with
  | O => None
  | S fuel' =>
      match s with
      | EmptyString => None
      | String _ _ =>
          let '(r, size) := utf8.DecodeRuneInString s in
          if f r then
            match indexNotFunc fuel' f (drop size s) with
            | Some i => Some (size + i)%nat
            | None => None
            end
          else Some O
      end
  end.

(** [strings.TrimLeftFunc(s, f)] *)
Definition TrimLeftFunc (s : string) (f : Z -> bool) : string :=
  match indexNotFunc (String.length s) f s with
  | None => EmptyString
  | Some i => drop i s
  end.

(** [lastIndexFunc(s, f, false)], entered with [i] bytes left to look at. *)
Fixpoint lastIndexNotFunc (fuel : nat) (f : Z -> bool) (s : string) (i : nat)
    : option nat :=
  match fuel with
  | O => None
  | S fuel' =>
      match i with
      | O => None
      | S _ =>
          let '(r, size) := utf8.DecodeLastRuneInString (take i s) in
          let i' := (i - size)%nat in
          if f r then lastIndexNotFunc fuel' f s i' else Some i'
      end
  end.

(** [strings.TrimRightFunc(s, f)] *)
Definition TrimRightFunc (s : string) (f : Z -> bool) : string :=
  match lastIndexNotFunc (String.length s) f s (String.length s) with
  | None => EmptyString
  | Some i =>
      match String.get i s with
      | Some c =>
          if (utf8.RuneSelf <=? byte c)%Z then
            take (i + snd (utf8.DecodeRuneInString (drop i s))) s
          else take (S i) s
      | None => take (S i) s
      end
  end.

(** [strings.TrimSpace(s)]: its ASCII fast paths return what
    [TrimFunc(s, unicode.IsSpace)] returns. *)
Definition TrimSpace (s : string) : string :=
  TrimRightFunc (TrimLeftFunc s unicode.IsSpace) unicode.IsSpace.

(** Membership of a byte in an [asciiSet] built from [cutset]. *)
Fixpoint asciiSetContains (cutset : string) (c : ascii) : bool :=
  match cutset with
  | EmptyString => false
  | String d t => Ascii.eqb d c || asciiSetContains t c
  end.

(** [trimRightASCII]: drop bytes of the set from the end of [s]. *)
Fixpoint trimRightASCII (n : nat) (s cutset : string) : string :=
  match n with
  | O => s
  | S n' =>
      match String.length s with
      | O => s
      | S last =>
          match String.get last s with
          | Some c =>
              if asciiSetContains cutset c
              then trimRightASCII n' (take last s) cutset
              else s
          | None => s
          end
      end
  end.

(** [strings.TrimRight(s, cutset)] for a [cutset] of ASCII bytes, the only
    kind the probes pass (["\x00\n"]). *)
Definition TrimRight (s cutset : string) : string :=
  match s, cutset with
  | EmptyString, _ => s
  | _, EmptyString => s
  | _, _ => trimRightASCII (String.length s) s cutset
  end.

End strings.

(** ** bufio *)

Module bufio.

Definition MaxScanTokenSize : N := 65536.

Definition CR : ascii := ascii_of_nat 13.
Definition LF : ascii := ascii_of_nat 10.

(** [dropCR]: drop one terminal carriage return. *)
Definition dropCR (data : string) : string :=
  match String.length data with
  | O => data
  | S last =>
      match String.get last data with
      | Some c => if Ascii.eqb c CR then take last data else data
      | None => data
      end
  end.

(** The tokens a [Scanner] with the default split function [ScanLines] and
    the default buffer delivers over a reader that yields the bytes [s] and
    then ends (at end of file or with a read error): the successive values
    of [scanner.Text()] for which [scanner.Scan()] is true.  A line that
    fills the buffer of [MaxScanTokenSize] bytes before its newline arrives
    stops the scan ([ErrTooLong]). *)
Fixpoint scanLoop (fuel : nat) (s : string) : list string :=
  match fuel with
  | O => []
  | S fuel' =>
      match IndexByte s LF with
      | Some i =>
          if (MaxScanTokenSize <=? N.of_nat i)%N then []
          else dropCR (take i s) :: scanLoop fuel' (drop (S i) s)
      | None =>
          match s with
          | EmptyString => []
          | String _ _ =>
              if (MaxScanTokenSize <=? N.of_nat (String.length s))%N then []
              else [dropCR s]
          end
      end
  end.

Definition Lines (s : string) : list string := scanLoop (S (String.length s)) s.

End bufio.

(** ** fmt *)

Module fmt.

(** [fmt.Sprintf] for formats whose only verb is [%s], applied to string
    operands. *)
Fixpoint Sprintf (format : string) (a : list string) : string :=
  match format with
  | EmptyString => EmptyString
  | String "%" (String "s" t) =>
      match a with
      | x :: a' => x ++ Sprintf t a'
      | [] => "%!s(MISSING)" ++ Sprintf t []
      end
  | String c t => String c (Sprintf t a)
  end.

End fmt.

(** ** The environment of a probe run *)

(** A Go [(T, error)] result; an error is kept as its message. *)
Inductive result (A : Type) : Type :=
| Ok (a : A)
| Err (err : string).

Arguments Ok {A} a.
Arguments Err {A} err.

(** What the probes can observe of the machine.  [Open] gives the bytes the
    opened file delivers to its reader before it ends (at end of file or
    with a read error).  [NewReader] is [gzip.NewReader] on such a byte
    stream: it fails when the gzip header cannot be read, and otherwise
    gives the bytes the decompressor delivers before it ends.  The gzip
    format itself is not modelled: every such function is allowed. *)
Record World : Type := {
  Readlink : string -> result string;
  ReadFile : string -> result string;
  Open : string -> result string;
  NewReader : string -> result string
}.

(** What a probe does: system calls and emitted lines, in order.  A line
    written through [log] or [fmt] is kept as the call's format and
    operands. *)
Inductive Event : Type :=
| OsReadlink (name : string)
| IoutilReadFile (filename : string)
| OsOpen (name : string)
| LogPrintln (v : string)
| LogPrintf (format : string) (a : list string)
| FmtPrintf (format : string) (a : list string).

Inductive Outcome (A : Type) : Type :=
| Returns (a : A)
| Panics.

Arguments Returns {A} a.
Arguments Panics {A}.

(** A Go function body: it reads the world, leaves a trace and returns or
    panics. *)
Definition Go (A : Type) : Type := World -> list Event * Outcome A.

Definition ret {A : Type} (a : A) : Go A := fun _ => ([], Returns a).

Definition bind {A B : Type} (m : Go A) (k : A -> Go B) : Go B :=
  fun w =>
    match m w with
    | (tr, Returns a) => let '(tr', o) := k a w in ((tr ++ tr')%list, o)
    | (tr, Panics) => (tr, Panics)
    end.

Declare Scope go_scope.
Delimit Scope go_scope with go.
Bind Scope go_scope with Go.

Notation "x <- m ;; k" := (bind m (fun x => k))
  (at level 61, m at next level, right associativity) : go_scope.
Notation "' pat <- m ;; k" := (bind m (fun x => match x with pat => k end))
  (at level 61, pat pattern, m at next level, right associativity) : go_scope.
Notation "m ;; k" := (bind m (fun _ => k))
  (at level 61, right associativity) : go_scope.

Open Scope go_scope.

Definition emit (e : Event) : Go unit := fun _ => ([e], Returns tt).

Definition os_Readlink (name : string) : Go (result string) :=
  fun w => ([OsReadlink name], Returns (Readlink w name)).

Definition ioutil_ReadFile (filename : string) : Go (result string) :=
  fun w => ([IoutilReadFile filename], Returns (ReadFile w filename)).

Definition os_Open (name : string) : Go (result string) :=
  fun w => ([OsOpen name], Returns (Open w name)).

Definition gzip_NewReader (f : string) : Go (result string) :=
  fun w => ([], Returns (NewReader w f)).

Definition log_Println (v : string) : Go unit := emit (LogPrintln v).
Definition log_Printf (format : string) (a : list string) : Go unit :=
  emit (LogPrintf format a).
Definition fmt_Printf (format : string) (a : list string) : Go unit :=
  emit (FmtPrintf format a).

(** [parts[i]]: an index out of range panics. *)
Definition indexParts (parts : list string) (i : nat) : Go string :=
  fun _ =>
    match nth_error parts i with
    | Some p => ([], Returns p)
    | None => ([], Panics)
    end.

(** [for _, x := range xs { body }] *)
Fixpoint forRange {A : Type} (xs : list A) (body : A -> Go unit) : Go unit :=
  match xs with
  | [] => ret tt
  | x :: xs' => body x ;; forRange xs' body
  end.

Definition trace {A : Type} (m : Go A) (w : World) : list Event := fst (m w).
Definition outcome {A : Type} (m : Go A) (w : World) : Outcome A := snd (m w).

Definition isFinding (e : Event) : bool :=
  match e with
  | LogPrintln _ | LogPrintf _ _ | FmtPrintf _ _ => true
  | _ => false
  end.

(** The lines a probe emits, in order. *)
Definition findings {A : Type} (m : Go A) (w : World) : list Event :=
  filter isFinding (trace m w).

Definition TAB : string := String (ascii_of_nat 9) "".
Definition NL : string := String (ascii_of_nat 10) "".
Definition NUL : string := String (ascii_of_nat 0) "".

(** ** The probes *)

Definition namespaceTypes : list string :=
  ["cgroup"; "ipc"; "mnt"; "net"; "pid"; "uts"].

Definition CheckNamespaceIsolation : Go unit :=
  log_Println "Namespace isolation status:" ;;
  forRange namespaceTypes (fun ns =>
    r1 <- os_Readlink (fmt.Sprintf "/proc/1/ns/%s" [ns]) ;;
    r2 <- os_Readlink (fmt.Sprintf "/proc/self/ns/%s" [ns]) ;;
    match r1, r2 with
    | Ok initTarget, Ok selfTarget =>
        if negb (String.eqb initTarget selfTarget) then
          fmt_Printf (TAB ++ "%s: isolated (%s)" ++ NL) [ns; selfTarget]
        else
          fmt_Printf (TAB ++ "%s: NOT isolated (shared with host, %s)" ++ NL)
                     [ns; selfTarget]
    | _, _ => log_Printf (TAB ++ "%s: unable to read namespace links") [ns]
    end).

(** [matchConfigLine] *)
Definition matchConfigLine (line key : string) : string * bool :=
  if strings.HasPrefix line (key ++ "=") then
    (strings.TrimPrefix line (key ++ "="), true)
  else if String.eqb line ("# " ++ key ++ " is not set") then ("n", true)
  else ("", false).

(** The scanning loop of [readKernelConfigOption] over the lines still to
    come, with the [return "", false] that follows it. *)
Fixpoint scanConfig (lines : list string) (key : string) : string * bool :=
  match lines with
  | [] => ("", false)
  | line :: rest =>
      let '(val, ok) := matchConfigLine line key in
      if ok then (val, true) else scanConfig rest key
  end.

(** [readKernelConfigOption]: the first block either returns ([Some]) or
    falls through ([None]) to the fallback. *)
Definition readKernelConfigOption (key : string) : Go (string * bool) :=
  early <-
    (f <- os_Open "/proc/config.gz" ;;
     match f with
     | Ok f =>
         gz <- gzip_NewReader f ;;
         match gz with
         | Ok gz => ret (Some (scanConfig (bufio.Lines gz) key))
         | Err _ => ret None
         end
     | Err _ => ret None
     end) ;;
  match early with
  | Some r => ret r
  | None =>
      uname <- ioutil_ReadFile "/proc/sys/kernel/osrelease" ;;
      match uname with
      | Err _ => ret ("", false)
      | Ok uname =>
          let configPath := "/boot/config-" ++ strings.TrimSpace uname in
          f2 <- os_Open configPath ;;
          match f2 with
          | Err _ => ret ("", false)
          | Ok f2 => ret (scanConfig (bufio.Lines f2) key)
          end
      end
  end.

(** The scanning loop of [CheckSeccompStatus] over the lines still to come,
    with the [log.Println] that follows it. *)
Fixpoint scanStatus (lines : list string) : Go unit :=
  match lines with
  | [] =>
      log_Println
        "Seccomp: field not found in /proc/self/status (kernel may not support Seccomp)"
  | line :: rest =>
      if strings.HasPrefix line "Seccomp:" then
        let parts := strings.Fields line in
        if Nat.ltb (List.length parts) 2 then
          log_Println "seccomp: malformed Seccomp line"
        else
          mode <- indexParts parts 1 ;;
          if String.eqb mode "0" then log_Println "Seccomp: disabled"
          else if String.eqb mode "1" then log_Println "Seccomp: strict mode (1)"
          else if String.eqb mode "2" then log_Println "Seccomp: filter mode (2)"
          else
            p <- indexParts parts 1 ;;
            log_Printf "Seccomp: unknown value %s" [p]
      else scanStatus rest
  end.

Definition CheckSeccompStatus : Go unit :=
  data <- ioutil_ReadFile "/proc/self/status" ;;
  match data with
  | Err err => log_Printf "seccomp: unable to read /proc/self/status: %v" [err]
  | Ok data => scanStatus (bufio.Lines data)
  end.

Definition CheckSeccompKernelSupport : Go unit :=
  data <- ioutil_ReadFile "/proc/self/status" ;;
  match data with
  | Err err => log_Printf "seccomp: unable to read /proc/self/status: %v" [err]
  | Ok data =>
      (if strings.Contains data "Seccomp:" then
         log_Println "Seccomp: kernel supports Seccomp"
       else
         log_Println "Seccomp: kernel does NOT support Seccomp") ;;
      '(val, ok) <- readKernelConfigOption "CONFIG_SECCOMP" ;;
      if ok then log_Printf "Seccomp: kernel config CONFIG_SECCOMP=%s" [val]
      else ret tt
  end.

Definition CheckSELinux : Go unit :=
  let enforceFile := "/sys/fs/selinux/enforce" in
  data <- ioutil_ReadFile enforceFile ;;
  match data with
  | Err _ => log_Println "SELinux: not detected (no selinuxfs)"
  | Ok data =>
      (let v := strings.TrimSpace data in
       if String.eqb v "1" then log_Println "SELinux: enforcing"
       else if String.eqb v "0" then
         log_Println "SELinux: permissive (loaded but not enforcing)"
       else
         log_Printf "SELinux: unexpected enforce value %q"
                    [strings.TrimSpace data]) ;;
      label <- ioutil_ReadFile "/proc/self/attr/current" ;;
      match label with
      | Ok label =>
          let trimmed := strings.TrimRight label (NUL ++ NL) in
          log_Printf "SELinux: container label: %s" [trimmed]
      | Err _ => ret tt
      end
  end.

Definition CheckAppArmor : Go unit :=
  '(val, ok) <- readKernelConfigOption "CONFIG_SECURITY_APPARMOR" ;;
  (if ok then
     log_Printf "AppArmor: kernel config CONFIG_SECURITY_APPARMOR=%s" [val]
   else log_Println "AppArmor: kernel config not available") ;;
  cmdline <- ioutil_ReadFile "/proc/cmdline" ;;
  match cmdline with
  | Ok cmdline =>
      let params := cmdline in
      if strings.Contains params "apparmor=1"
         || strings.Contains params "security=apparmor" then
        log_Printf "AppArmor: enabled via boot parameters (%s)"
                   [strings.TrimSpace params]
      else if strings.Contains params "apparmor=0" then
        log_Println "AppArmor: disabled via boot parameter apparmor=0"
      else log_Println "AppArmor: no explicit AppArmor boot parameter found"
  | Err _ => ret tt
  end ;;
  data <- ioutil_ReadFile "/sys/module/apparmor/parameters/enabled" ;;
  match data with
  | Ok data =>
      if String.eqb (strings.TrimSpace data) "Y" then
        log_Println "AppArmor: module is enabled (runtime)"
      else log_Println "AppArmor: module is loaded but disabled (runtime)"
  | Err _ => log_Println "AppArmor: module not loaded"
  end ;;
  label <- ioutil_ReadFile "/proc/self/attr/current" ;;
  match label with
  | Ok label =>
      let trimmed := strings.TrimRight label (NUL ++ NL) in
      if String.eqb trimmed "" || String.eqb trimmed "unconfined" then
        log_Println "AppArmor: container is unconfined (no profile attached)"
      else log_Printf "AppArmor: container profile: %s" [trimmed]
  | Err _ => log_Println "AppArmor: unable to read container profile"
  end.

(** ** The process lister (package [ps]) *)

Module ps.

(** A process as [RunPs] sees it: its [Pid] field and what the accessors
    [Exe], [Ppid] and [Username] return, a value and an error (if any). *)
Record Process : Type := {
  Pid : Z;
  Exe : string * option string;
  Ppid : Z * option string;
  Username : string * option string
}.

(** What [RunPs] writes: [log.Fatal] prints its operand and then exits. *)
Inductive Event : Type :=
| LogFatal (v : string)
| FmtPrintf (format : string) (a : list string).

Inductive Outcome : Type :=
| Returns
| Exits (code : Z).

(** The verb [%v] on an integer: its decimal digits, with a sign when
    negative. *)
Definition itoa (n : Z) : string := NilZero.string_of_int (Z.to_int n).

(** The loop of [RunPs] over the processes still to print. *)
Fixpoint printProcesses (ps : list Process) : list Event :=
  match ps with
  | [] => []
  | p :: rest =>
      let '(pexe, _) := Exe p in
      let '(ppid, _) := Ppid p in
      let '(user, _) := Username p in
      FmtPrintf ("%v" ++ TAB ++ "%v" ++ TAB ++ "%v" ++ TAB ++ "%v" ++ NL)
                [user; itoa (Pid p); itoa ppid; pexe]
      :: printProcesses rest
  end.

(** [RunPs], given what [process.Processes()] returns. *)
Definition RunPs (processes : result (list Process)) : list Event * Outcome :=
  match processes with
  | Err _ => ([LogFatal "get process list failed."], Exits 1%Z)
  | Ok ps => (printProcesses ps, Returns)
  end.

End ps.

(** ** Vocabulary of the statements *)

(** The system calls a probe makes, in order. *)
Definition calls {A : Type} (m : Go A) (w : World) : list Event :=
  filter (fun e => negb (isFinding e)) (trace m w).

(** The findings of [CheckAppArmor], source by source. *)
Definition appArmorBuild (r : string * bool) : Event :=
  let '(val, ok) := r in
  if ok then LogPrintf "AppArmor: kernel config CONFIG_SECURITY_APPARMOR=%s" [val]
  else LogPrintln "AppArmor: kernel config not available".

Definition appArmorBoot (r : result string) : list Event :=
  match r with
  | Ok params =>
      [if strings.Contains params "apparmor=1"
          || strings.Contains params "security=apparmor" then
         LogPrintf "AppArmor: enabled via boot parameters (%s)"
                   [strings.TrimSpace params]
       else if strings.Contains params "apparmor=0" then
         LogPrintln "AppArmor: disabled via boot parameter apparmor=0"
       else LogPrintln "AppArmor: no explicit AppArmor boot parameter found"]
  | Err _ => []
  end.

Definition appArmorModule (r : result string) : Event :=
  match r with
  | Ok data =>
      if String.eqb (strings.TrimSpace data) "Y" then
        LogPrintln "AppArmor: module is enabled (runtime)"
      else LogPrintln "AppArmor: module is loaded but disabled (runtime)"
  | Err _ => LogPrintln "AppArmor: module not loaded"
  end.

Definition appArmorProfile (r : result string) : Event :=
  match r with
  | Ok label =>
      if String.eqb (strings.TrimRight label (NUL ++ NL)) ""
         || String.eqb (strings.TrimRight label (NUL ++ NL)) "unconfined"
      then LogPrintln "AppArmor: container is unconfined (no profile attached)"
      else LogPrintf "AppArmor: container profile: %s"
                     [strings.TrimRight label (NUL ++ NL)]
  | Err _ => LogPrintln "AppArmor: unable to read container profile"
  end.



(** The decompressed bytes of /proc/config.gz, when that file opens and its
    gzip header parses. *)
Definition compressedSource (w : World) : option string :=
  match Open w "/proc/config.gz" with
  | Ok f =>
      match NewReader w f with
      | Ok gz => Some gz
      | Err _ => None
      end
  | Err _ => None
  end.

(** No character of [s] is the equals sign. *)
Fixpoint noEquals (s : string) : bool :=
  match s with
  | EmptyString => true
  | String c t => negb (Ascii.eqb c "=") && noEquals t
  end.

(** The finding of [CheckNamespaceIsolation] for one namespace kind. *)
Definition kindFinding (w : World) (ns : string) : Event :=
  match Readlink w ("/proc/1/ns/" ++ ns), Readlink w ("/proc/self/ns/" ++ ns) with
  | Ok initTarget, Ok selfTarget =>
      if String.eqb initTarget selfTarget then
        FmtPrintf (TAB ++ "%s: NOT isolated (shared with host, %s)" ++ NL)
                  [ns; selfTarget]
      else FmtPrintf (TAB ++ "%s: isolated (%s)" ++ NL) [ns; selfTarget]
  | _, _ => LogPrintf (TAB ++ "%s: unable to read namespace links") [ns]
  end.

(** The four finding groups of [CheckAppArmor], one per source. *)
Inductive Group : Type :=
| BuildOption
| BootParameters
| RuntimeStatus
| ActiveProfile.

(** The group an emitted line of [CheckAppArmor] belongs to. *)
Definition groupOf (e : Event) : option Group :=
  match e with
  | LogPrintf format _ =>
      if String.eqb format "AppArmor: kernel config CONFIG_SECURITY_APPARMOR=%s"
      then Some BuildOption
      else if String.eqb format "AppArmor: enabled via boot parameters (%s)"
      then Some BootParameters
      else if String.eqb format "AppArmor: container profile: %s"
      then Some ActiveProfile
      else None
  | LogPrintln v =>
      if String.eqb v "AppArmor: kernel config not available"
      then Some BuildOption
      else if String.eqb v "AppArmor: disabled via boot parameter apparmor=0"
              || String.eqb v "AppArmor: no explicit AppArmor boot parameter found"
      then Some BootParameters
      else if String.eqb v "AppArmor: module is enabled (runtime)"
              || String.eqb v "AppArmor: module is loaded but disabled (runtime)"
              || String.eqb v "AppArmor: module not loaded"
      then Some RuntimeStatus
      else if String.eqb v "AppArmor: container is unconfined (no profile attached)"
              || String.eqb v "AppArmor: unable to read container profile"
      then Some ActiveProfile
      else None
  | _ => None
  end.

(** Every byte of [s] is in [cutset]. *)
Fixpoint allIn (cutset s : string) : bool :=
  match s with
  | EmptyString => true
  | String c t => strings.asciiSetContains cutset c && allIn cutset t
  end.

(** [s] ends with a byte of [cutset]. *)
Definition lastByteIn (cutset s : string) : bool :=
  match String.length s with
  | O => false
  | S last =>
      match String.get last s with
      | Some c => strings.asciiSetContains cutset c
      | None => false
      end
  end.

(** [n] copies of the byte [c]. *)
Fixpoint repeatByte (c : ascii) (n : nat) : string :=
  match n with
  | O => EmptyString
  | S n' => String c (repeatByte c n')
  end.

(** [sub] occurs in [s] at some index. *)
Definition occurs (sub s : string) : Prop :=
  exists pre post : string, s = pre ++ sub ++ post.

(** The ASCII white space bytes: tab, newline, vertical tab, form feed,
    carriage return and space. *)
Definition isAsciiSpace (c : ascii) : bool :=
  ((byte c =? 9) || (byte c =? 10) || (byte c =? 11) || (byte c =? 12)
   || (byte c =? 13) || (byte c =? 32))%Z.

Fixpoint asciiSpaces (s : string) : bool :=
  match s with
  | EmptyString => true
  | String c t => isAsciiSpace c && asciiSpaces t
  end.

(** An ASCII byte that is not white space. *)
Definition isAsciiGraph (c : ascii) : bool :=
  ((byte c <? 128) && negb (unicode.IsSpace (byte c)))%Z.

(** The last byte of [s]. *)
Definition lastByte (s : string) : option ascii :=
  match String.length s with
  | O => None
  | S last => String.get last s
  end.

(** A text that starts and ends with ASCII bytes that are not white space
    (what lies between them is free). *)
Definition graphBounded (s : string) : bool :=
  match s, lastByte s with
  | String c _, Some d => isAsciiGraph c && isAsciiGraph d
  | _, _ => false
  end.

(** Every byte of [s] is an ASCII byte that is not white space. *)
Fixpoint allGraph (s : string) : bool :=
  match s with
  | EmptyString => true
  | String c t => isAsciiGraph c && allGraph t
  end.

(** The runes of [s], as [strings.FieldsFunc] ranges over them. *)
Definition runesAll (s : string) : list (Z * string) :=
  strings.runes (String.length s) s.

(** The finding of [CheckSeccompStatus] for the mode code [tok]. *)
Definition modeFinding (tok : string) : Event :=
  if String.eqb tok "0" then LogPrintln "Seccomp: disabled"
  else if String.eqb tok "1" then LogPrintln "Seccomp: strict mode (1)"
  else if String.eqb tok "2" then LogPrintln "Seccomp: filter mode (2)"
  else LogPrintf "Seccomp: unknown value %s" [tok].

(** The findings of [CheckSELinux] on a readable enforce file. *)
Definition selinuxVerdict (data : string) : Event :=
  if String.eqb (strings.TrimSpace data) "1" then LogPrintln "SELinux: enforcing"
  else if String.eqb (strings.TrimSpace data) "0" then
    LogPrintln "SELinux: permissive (loaded but not enforcing)"
  else LogPrintf "SELinux: unexpected enforce value %q" [strings.TrimSpace data].

Definition selinuxLabel (r : result string) : list Event :=
  match r with
  | Ok label =>
      [LogPrintf "SELinux: container label: %s"
                 [strings.TrimRight label (NUL ++ NL)]]
  | Err _ => []
  end.

(** The two links [CheckNamespaceIsolation] reads for a namespace kind. *)
Definition kindLinks (ns : string) : list Event :=
  [OsReadlink ("/proc/1/ns/" ++ ns); OsReadlink ("/proc/self/ns/" ++ ns)].

(** ** Example worlds *)

Definition lookup (table : list (string * string)) (err name : string)
    : result string :=
  match find (fun kv => String.eqb (fst kv) name) table with
  | Some kv => Ok (snd kv)
  | None => Err err
  end.

Definition mkWorld (links files opens gz : list (string * string)) : World :=
  {| Readlink := lookup links "no such file or directory";
     ReadFile := lookup files "no such file or directory";
     Open := lookup opens "no such file or directory";
     NewReader := lookup gz "gzip: invalid header" |}.

Definition gzConfig : string :=
  "# Automatically generated file" ++ NL
  ++ "CONFIG_SECCOMP=y" ++ NL
  ++ "# CONFIG_SECURITY_APPARMOR is not set" ++ NL.

Definition bootConfig : string :=
  "CONFIG_SECCOMP=m" ++ NL ++ "CONFIG_ONLY_IN_BOOT=y" ++ NL.

Definition statusFilter : string :=
  "Name:" ++ TAB ++ "cat" ++ NL
  ++ "Seccomp:" ++ TAB ++ "2" ++ NL
  ++ "Seccomp_filters:" ++ TAB ++ "1" ++ NL.

(** A container on a host that exposes both kernel configuration sources. *)
Definition worldContainer : World :=
  mkWorld
    [("/proc/1/ns/cgroup", "cgroup:[4026531835]");
     ("/proc/self/ns/cgroup", "cgroup:[4026532500]");
     ("/proc/1/ns/ipc", "ipc:[4026531839]");
     ("/proc/self/ns/ipc", "ipc:[4026531839]");
     ("/proc/self/ns/mnt", "mnt:[4026532498]")]
    [("/proc/self/status", statusFilter);
     ("/proc/sys/kernel/osrelease", "6.1.0" ++ NL);
     ("/sys/fs/selinux/enforce", "1" ++ NL);
     ("/proc/self/attr/current", "docker_t" ++ NUL ++ NL);
     ("/proc/cmdline", "root=/dev/sda1 apparmor=1 security=apparmor" ++ NL);
     ("/sys/module/apparmor/parameters/enabled", "Y" ++ NL)]
    [("/proc/config.gz", "compressed"); ("/boot/config-6.1.0", bootConfig)]
    [("compressed", gzConfig)].

(** A machine without any kernel configuration file. *)
Definition worldNoConfig : World :=
  mkWorld []
    [("/proc/self/status", "Name:" ++ TAB ++ "cat" ++ NL ++ "Seccomp:" ++ NL
                           ++ "Seccomp:" ++ TAB ++ "2" ++ NL);
     ("/proc/sys/kernel/osrelease", "6.1.0" ++ NL)]
    [] [].

(** /proc/self/status is unreadable, the kernel configuration is not. *)
Definition worldStatusUnreadable : World :=
  mkWorld [] [] [("/proc/config.gz", "compressed")] [("compressed", gzConfig)].

(** /proc/cmdline is unreadable, the other AppArmor sources are not. *)
Definition worldCmdlineUnreadable : World :=
  mkWorld []
    [("/sys/module/apparmor/parameters/enabled", "Y" ++ NL);
     ("/proc/self/attr/current", "docker-default (enforce)" ++ NL)]
    [("/proc/config.gz", "compressed")]
    [("compressed", "CONFIG_SECURITY_APPARMOR=y" ++ NL)].

(** No /proc/config.gz, but a boot configuration for the running release. *)
Definition worldBootOnly : World :=
  mkWorld []
    [("/proc/sys/kernel/osrelease", "6.1.0" ++ NL);
     ("/proc/self/status", "Name:" ++ TAB ++ "Seccomp:" ++ NL);
     ("/proc/cmdline", "root=/dev/sda1 apparmor=0 security=apparmor" ++ NL);
     ("/sys/fs/selinux/enforce", " 0" ++ NL);
     ("/sys/module/apparmor/parameters/enabled", "Y" ++ NL);
     ("/proc/self/attr/current", "unconfined" ++ NL ++ NUL)]
    [("/boot/config-6.1.0", bootConfig)]
    [].

(** /proc/config.gz written with carriage returns before the newlines. *)
Definition worldCrlf : World :=
  mkWorld [] []
    [("/proc/config.gz", "compressed")]
    [("compressed",
      "CONFIG_SECCOMP=y" ++ String bufio.CR NL ++ "CONFIG_AUDIT=y"
      ++ String bufio.CR NL)].


(** * Properties *)

(** ** Strings *)

Lemma append_assoc (a b c : string) : (a ++ b) ++ c = a ++ (b ++ c).
Proof.
  induction a as [|x a IH]; simpl; [reflexivity | now rewrite IH].
Qed.

Lemma append_nil_r (s : string) : s ++ "" = s.
Proof. induction s as [|c s IH]; simpl; [reflexivity | now rewrite IH]. Qed.

Lemma prefix_nil (s : string) : String.prefix "" s = true.
Proof. now destruct s. Qed.

Lemma prefix_cons (a b : ascii) (p s : string) :
  String.prefix (String a p) (String b s) = Ascii.eqb a b && String.prefix p s.
Proof.
  cbn [String.prefix].
  destruct (ascii_dec a b) as [->|n].
  - now rewrite Ascii.eqb_refl.
  - apply Ascii.eqb_neq in n; now rewrite n.
Qed.

Lemma prefix_append (p s : string) : String.prefix p (p ++ s) = true.
Proof.
  induction p as [|x p IH]; cbn [append].
  - apply prefix_nil.
  - now rewrite prefix_cons, Ascii.eqb_refl.
Qed.

Lemma drop_append (p s : string) : drop (String.length p) (p ++ s) = s.
Proof.
  induction p as [|x p IH]; simpl; [now destruct s | exact IH].
Qed.

Lemma take_snoc (s : string) :
  forall (last : nat) (c : ascii),
    String.length s = S last -> String.get last s = Some c ->
    s = take last s ++ String c "".
Proof.
  induction s as [|a t IH]; intros last c Hlen Hget; [discriminate|].
  destruct last as [|l]; simpl in *.
  - destruct t; [|discriminate]. now injection Hget as ->.
  - f_equal. apply IH; [now injection Hlen | exact Hget].
Qed.

Lemma length_take (n : nat) :
  forall s : string, n <= String.length s -> String.length (take n s) = n.
Proof.
  induction n as [|n IH]; intros s H; [reflexivity|].
  destruct s as [|a t]; simpl in *; [lia|]. rewrite IH; lia.
Qed.

Lemma prefix_split (p s : string) :
  String.prefix p s = true -> s = p ++ drop (String.length p) s.
Proof.
  revert s; induction p as [|x p IH]; intros s H.
  - now destruct s.
  - destruct s as [|y s]; [discriminate|].
    rewrite prefix_cons in H. apply andb_true_iff in H as [Hxy H].
    apply Ascii.eqb_eq in Hxy as ->.
    simpl; now rewrite <- (IH s H).
Qed.

Lemma noEquals_rotate (c : ascii) (p : string) :
  noEquals (String c p) = true -> noEquals (p ++ String c "") = true.
Proof.
  simpl; intros H; apply andb_true_iff in H as [Hc Hp].
  induction p as [|d p IH]; simpl in *.
  - now rewrite Hc.
  - apply andb_true_iff in Hp as [Hd Hp]; rewrite Hd; simpl; auto.
Qed.

(** A key followed by [=] never starts a line that consists of a non-empty
    text without [=], then the key, then anything. *)
Lemma key_equals_no_overlap (k : string) :
  forall p t : string,
    p <> "" -> noEquals p = true ->
    String.prefix (k ++ "=") (p ++ k ++ t) = false.
Proof.
  induction k as [|c k IH]; intros p t Hne Hp.
  - destruct p as [|d p]; [now elim Hne|].
    cbn [append noEquals] in *. rewrite prefix_cons.
    apply andb_true_iff in Hp as [Hd _].
    rewrite Ascii.eqb_sym. now destruct (Ascii.eqb d "=").
  - destruct p as [|d p]; [now elim Hne|].
    cbn [append]. rewrite prefix_cons.
    destruct (Ascii.eqb_spec c d) as [<-|]; [|reflexivity].
    rewrite andb_true_l.
    replace (p ++ String c (k ++ t)) with ((p ++ String c "") ++ k ++ t)
      by (rewrite append_assoc; reflexivity).
    apply IH.
    + now destruct p.
    + now apply noEquals_rotate.
Qed.

(** ** The loops of the library run to their end *)

Lemma length_drop (n : nat) :
  forall s : string, String.length (drop n s) = String.length s - n.
Proof.
  induction n as [|n IH]; intros s; simpl; [lia|].
  destruct s as [|a t]; simpl; [reflexivity | apply IH].
Qed.

Lemma IndexByte_lt (c : ascii) (s : string) :
  forall i : nat, IndexByte s c = Some i -> i < String.length s.
Proof.
  induction s as [|d t IH]; intros i H; simpl in *; [discriminate|].
  destruct (Ascii.eqb d c).
  - injection H as <-; lia.
  - destruct (IndexByte t c) as [j|]; [|discriminate].
    injection H as <-. specialize (IH j eq_refl). lia.
Qed.

(** The scanner's loop is given more fuel than it has bytes to read: any
    larger amount delivers the same lines. *)
Lemma scanLoop_fuel (n : nat) :
  forall (m : nat) (s : string),
    String.length s < n -> String.length s < m ->
    bufio.scanLoop n s = bufio.scanLoop m s.
Proof.
  induction n as [|n IH]; intros m s Hn Hm; [lia|].
  destruct m as [|m]; [lia|]. cbn [bufio.scanLoop].
  destruct (IndexByte s bufio.LF) as [i|] eqn:Ei; [|reflexivity].
  destruct (bufio.MaxScanTokenSize <=? N.of_nat i)%N; [reflexivity|].
  apply IndexByte_lt in Ei. f_equal.
  apply IH; rewrite length_drop; lia.
Qed.

Lemma DecodeRuneInString_size (s : string) :
  s <> "" -> 1 <= snd (utf8.DecodeRuneInString s).
Proof.
  intros Hs. unfold utf8.DecodeRuneInString.
  destruct s as [|c0 t0]; [now elim Hs|]. cbv zeta.
  repeat match goal with
         | |- context [if ?b then _ else _] => destruct b
         | |- context [match ?t with EmptyString => _ | String _ _ => _ end] =>
             destruct t
         end; simpl; lia.
Qed.

(** The rune loop is given as much fuel as the string has bytes: any
    larger amount decodes the same runes. *)
Lemma runes_fuel (n : nat) :
  forall (m : nat) (s : string),
    String.length s <= n -> String.length s <= m ->
    strings.runes n s = strings.runes m s.
Proof.
  induction n as [|n IH]; intros m s Hn Hm.
  - destruct s; [|simpl in Hn; lia]. now destruct m.
  - destruct s as [|c t]; [now destruct m|].
    destruct m as [|m]; [simpl in Hm; lia|]. cbn [strings.runes].
    pose proof (DecodeRuneInString_size (String c t)) as Hsz.
    destruct (utf8.DecodeRuneInString (String c t)) as [r size].
    cbn [snd] in Hsz. specialize (Hsz ltac:(discriminate)).
    f_equal. apply IH; rewrite length_drop; cbn [String.length] in *; lia.
Qed.

Lemma indexNotFunc_fuel (f : Z -> bool) (n : nat) :
  forall (m : nat) (s : string),
    String.length s <= n -> String.length s <= m ->
    strings.indexNotFunc n f s = strings.indexNotFunc m f s.
Proof.
  induction n as [|n IH]; intros m s Hn Hm.
  - destruct s; [|simpl in Hn; lia]. now destruct m.
  - destruct s as [|c t]; [now destruct m|].
    destruct m as [|m]; [simpl in Hm; lia|]. cbn [strings.indexNotFunc].
    pose proof (DecodeRuneInString_size (String c t)) as Hsz.
    destruct (utf8.DecodeRuneInString (String c t)) as [r size].
    cbn [snd] in Hsz. specialize (Hsz ltac:(discriminate)).
    destruct (f r); [|reflexivity].
    rewrite (IH m (drop size (String c t))); [reflexivity| |];
      rewrite length_drop; cbn [String.length] in *; lia.
Qed.

Lemma get_last (s : string) :
  forall last : nat,
    String.length s = S last -> exists c, String.get last s = Some c.
Proof.
  induction s as [|a t IH]; intros last H; [discriminate|].
  destruct last as [|l]; simpl in *; [eauto|]. apply IH. now injection H.
Qed.

Lemma walkBack_le (s : string) (lim start : nat) :
  utf8.walkBack s lim start <= start.
Proof.
  induction start as [|start IH]; cbn [utf8.walkBack].
  - destruct (Nat.ltb 0 lim); [lia|].
    destruct (String.get 0 s) as [c|]; [|lia].
    destruct (utf8.RuneStart (byte c)); lia.
  - destruct (Nat.ltb (S start) lim); [lia|].
    destruct (String.get (S start) s) as [c|]; [|lia].
    destruct (utf8.RuneStart (byte c)); lia.
Qed.

Lemma DecodeLastRuneInString_size (s : string) :
  s <> "" -> 1 <= snd (utf8.DecodeLastRuneInString s).
Proof.
  intros Hs. unfold utf8.DecodeLastRuneInString.
  destruct (String.length s) as [|last] eqn:El.
  - destruct s; [now elim Hs | discriminate].
  - destruct (get_last s last El) as [c ->]. cbv zeta.
    destruct (byte c <? utf8.RuneSelf)%Z; [simpl; lia|].
    set (start := match last with
                  | O => O
                  | S p => utf8.walkBack s (S last - utf8.UTFMax) p
                  end).
    assert (Hstart : start <= last).
    { subst start. destruct last as [|p]; [lia|].
      pose proof (walkBack_le s (S (S p) - utf8.UTFMax) p). lia. }
    destruct (utf8.DecodeRuneInString (slice start (S last) s)) as [r' size].
    destruct (Nat.eqb (start + size) (S last)) eqn:E; [|simpl; lia].
    apply Nat.eqb_eq in E. simpl. lia.
Qed.

Lemma take_nonempty (i : nat) (s : string) :
  0 < i -> i <= String.length s -> take i s <> "".
Proof.
  intros Hi Hle H. apply (f_equal String.length) in H.
  rewrite length_take in H by exact Hle. simpl in H. lia.
Qed.

(** The backward loop is given as much fuel as it has bytes to look at. *)
Lemma lastIndexNotFunc_fuel (f : Z -> bool) (s : string) (n : nat) :
  forall m i : nat,
    i <= String.length s -> i <= n -> i <= m ->
    strings.lastIndexNotFunc n f s i = strings.lastIndexNotFunc m f s i.
Proof.
  induction n as [|n IH]; intros m i Hi Hn Hm.
  - assert (i = 0) as -> by lia. now destruct m.
  - destruct i as [|i]; [now destruct m|].
    destruct m as [|m]; [lia|]. cbn [strings.lastIndexNotFunc].
    pose proof (DecodeLastRuneInString_size (take (S i) s)
                  (take_nonempty (S i) s ltac:(lia) Hi)) as Hsz.
    destruct (utf8.DecodeLastRuneInString (take (S i) s)) as [r size].
    cbn [snd] in Hsz.
    destruct (f r); [|reflexivity]. apply IH; lia.
Qed.

(** ** The library functions on sample inputs *)

Example Fields_status_line :
  strings.Fields ("Seccomp:" ++ TAB ++ "2") = ["Seccomp:"; "2"].
Proof. vm_compute; reflexivity. Qed.

(** U+00A0 (bytes C2 A0) separates fields; a lone byte A0 does not. *)
Example Fields_unicode_space :
  strings.Fields (" a" ++ String (ascii_of_nat 194) (String (ascii_of_nat 160) "b")
                  ++ String (ascii_of_nat 160) "c ")
  = ["a"; "b" ++ String (ascii_of_nat 160) "c"].
Proof. vm_compute; reflexivity. Qed.

Example TrimSpace_enforce : strings.TrimSpace (" 1" ++ TAB ++ NL) = "1".
Proof. vm_compute; reflexivity. Qed.

Example TrimSpace_inner_space_kept : strings.TrimSpace (" a b" ++ NL) = "a b".
Proof. vm_compute; reflexivity. Qed.

Example Contains_boot_parameter :
  strings.Contains "root=/dev/sda1 noapparmor=1x" "apparmor=1" = true.
Proof. vm_compute; reflexivity. Qed.

(** Lines end at a newline, lose one carriage return, and the last one
    need not be terminated. *)
Example Lines_sample :
  bufio.Lines ("a" ++ String bufio.CR NL ++ NL ++ "b ")
  = ["a"; ""; "b "].
Proof. vm_compute; reflexivity. Qed.

(** A line of 65535 bytes is delivered; one of 65536 bytes ends the scan
    before the lines that follow it. *)
Example Lines_token_limit :
  List.length (bufio.Lines (repeatByte "a" (2 ^ 16 - 1) ++ NL ++ "K=v" ++ NL)) = 2
  /\ bufio.Lines (repeatByte "a" (2 ^ 16) ++ NL ++ "K=v" ++ NL) = [].
Proof. split; vm_compute; reflexivity. Qed.

(** ** The configuration line matcher *)

Lemma matchConfigLine_assignment (K V : string) :
  matchConfigLine (K ++ "=" ++ V) K = (V, true).
Proof.
  unfold matchConfigLine, strings.TrimPrefix, strings.HasPrefix.
  rewrite <- append_assoc, prefix_append, drop_append; reflexivity.
Qed.

Lemma matchConfigLine_not_set (K : string) :
  matchConfigLine ("# " ++ K ++ " is not set") K = ("n", true).
Proof.
  unfold matchConfigLine, strings.HasPrefix.
  rewrite (key_equals_no_overlap K "# " " is not set") by (discriminate || reflexivity).
  now rewrite String.eqb_refl.
Qed.

Lemma matchConfigLine_matched (L K : string) :
  snd (matchConfigLine L K) = true ->
  (exists V, L = K ++ "=" ++ V) \/ L = "# " ++ K ++ " is not set".
Proof.
  unfold matchConfigLine, strings.HasPrefix.
  destruct (String.prefix (K ++ "=") L) eqn:Hp.
  - intros _; left; exists (drop (String.length (K ++ "=")) L).
    rewrite <- append_assoc; now apply prefix_split.
  - destruct (String.eqb_spec L ("# " ++ K ++ " is not set")) as [->|_];
      simpl; [now right | discriminate].
Qed.

(** C2: for every key K, value V and line L, [matchConfigLine] on the line
    K=V gives (V, true), on the line "# K is not set" gives ("n", true), and
    on a line of neither shape reports no match. *)
Theorem matchConfigLine_spec (K V L : string) :
  matchConfigLine (K ++ "=" ++ V) K = (V, true)
  /\ matchConfigLine ("# " ++ K ++ " is not set") K = ("n", true)
  /\ ((forall V', L <> K ++ "=" ++ V') ->
      L <> "# " ++ K ++ " is not set" ->
      snd (matchConfigLine L K) = false).
Proof.
  split; [apply matchConfigLine_assignment|].
  split; [apply matchConfigLine_not_set|].
  intros Hassign Hunset.
  destruct (snd (matchConfigLine L K)) eqn:E; [|reflexivity].
  destruct (matchConfigLine_matched L K E) as [[V' HV]|H].
  - now elim (Hassign V').
  - now elim Hunset.
Qed.

Lemma matchConfigLine_spec_witness :
  matchConfigLine "CONFIG_SECCOMP=y" "CONFIG_SECCOMP" = ("y", true)
  /\ matchConfigLine "# CONFIG_SECCOMP is not set" "CONFIG_SECCOMP" = ("n", true)
  /\ snd (matchConfigLine " CONFIG_SECCOMP=y" "CONFIG_SECCOMP") = false.
Proof.
  destruct (matchConfigLine_spec "CONFIG_SECCOMP" "y" " CONFIG_SECCOMP=y")
    as (H1 & H2 & H3).
  split; [exact H1|]. split; [exact H2|].
  apply H3.
  - intros V'; simpl; discriminate.
  - simpl; discriminate.
Defined.

(** ** The kernel configuration resolver *)

Lemma scanConfig_first_match (key : string) (pre : list string) :
  forall (line : string) (post : list string) (val : string),
    (forall l, In l pre -> snd (matchConfigLine l key) = false) ->
    matchConfigLine line key = (val, true) ->
    scanConfig (pre ++ line :: post) key = (val, true).
Proof.
  induction pre as [|l pre IH]; intros line post val Hpre Hline; simpl.
  - now rewrite Hline.
  - generalize (Hpre l (or_introl eq_refl)).
    destruct (matchConfigLine l key) as [v ok]; simpl; intros ->.
    apply IH; auto. intros l' Hl'; apply Hpre; now right.
Qed.

Lemma scanConfig_no_match (key : string) (lines : list string) :
  (forall l, In l lines -> snd (matchConfigLine l key) = false) ->
  scanConfig lines key = ("", false).
Proof.
  induction lines as [|l lines IH]; intros H; simpl; [reflexivity|].
  generalize (H l (or_introl eq_refl)).
  destruct (matchConfigLine l key) as [v ok]; simpl; intros ->.
  apply IH. intros l' Hl'; apply H; now right.
Qed.

Ltac run_resolver :=
  cbv [readKernelConfigOption bind ret os_Open gzip_NewReader ioutil_ReadFile].

Lemma resolver_compressed (w : World) (key gz : string) :
  compressedSource w = Some gz ->
  readKernelConfigOption key w
  = ([OsOpen "/proc/config.gz"], Returns (scanConfig (bufio.Lines gz) key)).
Proof.
  unfold compressedSource; run_resolver.
  destruct (Open w "/proc/config.gz") as [f|e]; [|discriminate].
  destruct (NewReader w f) as [gz'|e]; [|discriminate].
  now intros [= ->].
Qed.

Lemma resolver_fallback (w : World) (key : string) :
  compressedSource w = None ->
  readKernelConfigOption key w
  = match ReadFile w "/proc/sys/kernel/osrelease" with
    | Err _ =>
        ([OsOpen "/proc/config.gz"; IoutilReadFile "/proc/sys/kernel/osrelease"],
         Returns ("", false))
    | Ok uname =>
        ([OsOpen "/proc/config.gz"; IoutilReadFile "/proc/sys/kernel/osrelease";
          OsOpen ("/boot/config-" ++ strings.TrimSpace uname)],
         match Open w ("/boot/config-" ++ strings.TrimSpace uname) with
         | Err _ => Returns ("", false)
         | Ok f2 => Returns (scanConfig (bufio.Lines f2) key)
         end)
    end.
Proof.
  unfold compressedSource; run_resolver.
  destruct (Open w "/proc/config.gz") as [f|e].
  - destruct (NewReader w f) as [gz'|e]; [discriminate|]. intros _.
    destruct (ReadFile w "/proc/sys/kernel/osrelease") as [uname|e']; [|reflexivity].
    now destruct (Open w ("/boot/config-" ++ strings.TrimSpace uname)).
  - intros _.
    destruct (ReadFile w "/proc/sys/kernel/osrelease") as [uname|e']; [|reflexivity].
    now destruct (Open w ("/boot/config-" ++ strings.TrimSpace uname)).
Qed.

Lemma resolver_returns (w : World) (key : string) :
  exists r, outcome (readKernelConfigOption key) w = Returns r.
Proof.
  unfold outcome.
  destruct (compressedSource w) as [gz|] eqn:E.
  - rewrite (resolver_compressed w key gz E); simpl; eauto.
  - rewrite (resolver_fallback w key E).
    destruct (ReadFile w "/proc/sys/kernel/osrelease") as [uname|e];
      cbn [snd]; eauto.
    destruct (Open w ("/boot/config-" ++ strings.TrimSpace uname)); eauto.
Qed.

(** C3: when /proc/config.gz opens and decompresses and one of its lines
    matches the key, [readKernelConfigOption] returns the value of the first
    such line with found = true, whatever /boot/config-<release> holds; its
    only system call is the opening of /proc/config.gz. *)
Theorem resolver_prefers_compressed
    (w : World) (key gz : string) (pre : list string) (line : string)
    (post : list string) (val : string) :
  compressedSource w = Some gz ->
  bufio.Lines gz = (pre ++ line :: post)%list ->
  (forall l, In l pre -> snd (matchConfigLine l key) = false) ->
  matchConfigLine line key = (val, true) ->
  outcome (readKernelConfigOption key) w = Returns (val, true)
  /\ trace (readKernelConfigOption key) w = [OsOpen "/proc/config.gz"].
Proof.
  intros Hgz Hlines Hpre Hline.
  unfold outcome, trace.
  rewrite (resolver_compressed w key gz Hgz), Hlines.
  rewrite (scanConfig_first_match key pre line post val Hpre Hline).
  split; reflexivity.
Qed.

(** C9: when /proc/config.gz cannot be opened or decompressed, the release
    is readable and /boot/config-<release> cannot be opened,
    [readKernelConfigOption] returns ("", false), as it does when the
    release is unreadable; and in every world it returns a result to its
    caller. *)
Theorem resolver_degrades_to_not_found (w : World) (key : string) :
  (exists r, outcome (readKernelConfigOption key) w = Returns r)
  /\ (compressedSource w = None ->
      forall uname e,
        ReadFile w "/proc/sys/kernel/osrelease" = Ok uname ->
        Open w ("/boot/config-" ++ strings.TrimSpace uname) = Err e ->
        outcome (readKernelConfigOption key) w = Returns ("", false))
  /\ (compressedSource w = None ->
      forall e,
        ReadFile w "/proc/sys/kernel/osrelease" = Err e ->
        outcome (readKernelConfigOption key) w = Returns ("", false)).
Proof.
  split; [apply resolver_returns|]. split.
  - intros Hgz uname e Hu Ho. unfold outcome.
    rewrite (resolver_fallback w key Hgz), Hu; cbn [snd]. now rewrite Ho.
  - intros Hgz e Hu. unfold outcome.
    now rewrite (resolver_fallback w key Hgz), Hu.
Qed.

(** C10: when /proc/config.gz opens and its gzip stream starts, the result
    comes from its lines alone: with no matching line it is ("", false), and
    the only system call is the opening of /proc/config.gz.  Any other
    system call of the resolver shows that the compressed source could not
    be opened or that its gzip header did not parse. *)
Theorem resolver_fallback_only_without_compressed (w : World) (key : string) :
  (forall gz,
     compressedSource w = Some gz ->
     trace (readKernelConfigOption key) w = [OsOpen "/proc/config.gz"]
     /\ outcome (readKernelConfigOption key) w
        = Returns (scanConfig (bufio.Lines gz) key)
     /\ ((forall l, In l (bufio.Lines gz) -> snd (matchConfigLine l key) = false) ->
         outcome (readKernelConfigOption key) w = Returns ("", false)))
  /\ (forall e,
        In e (trace (readKernelConfigOption key) w) ->
        e <> OsOpen "/proc/config.gz" ->
        compressedSource w = None).
Proof.
  split.
  - intros gz Hgz. unfold trace, outcome.
    rewrite (resolver_compressed w key gz Hgz); simpl.
    split; [reflexivity|]. split; [reflexivity|].
    intros Hno. now rewrite (scanConfig_no_match key _ Hno).
  - intros e Hin Hne.
    destruct (compressedSource w) as [gz|] eqn:E; [|reflexivity].
    unfold trace in Hin. rewrite (resolver_compressed w key gz E) in Hin.
    simpl in Hin. destruct Hin as [<-|[]]. now elim Hne.
Qed.

(** ** The Seccomp mode probe *)

Ltac run_go :=
  cbv [bind ret emit log_Println log_Printf fmt_Printf indexParts
       ioutil_ReadFile os_Readlink os_Open gzip_NewReader].

Lemma scanStatus_skip (w : World) (pre : list string) :
  forall rest : list string,
    (forall l, In l pre -> strings.HasPrefix l "Seccomp:" = false) ->
    scanStatus (pre ++ rest) w = scanStatus rest w.
Proof.
  induction pre as [|l pre IH]; intros rest Hpre; [reflexivity|].
  cbn [app scanStatus]. rewrite (Hpre l (or_introl eq_refl)).
  apply IH. intros l' Hl'; apply Hpre; now right.
Qed.

Lemma scanStatus_malformed (w : World) (line : string) (post : list string) :
  strings.HasPrefix line "Seccomp:" = true ->
  List.length (strings.Fields line) < 2 ->
  scanStatus (line :: post) w
  = ([LogPrintln "seccomp: malformed Seccomp line"], Returns tt).
Proof.
  intros Hp Hlen. cbn [scanStatus]. rewrite Hp.
  apply Nat.ltb_lt in Hlen. now rewrite Hlen.
Qed.

Lemma scanStatus_mode (w : World) (line : string) (post : list string)
    (tok : string) :
  strings.HasPrefix line "Seccomp:" = true ->
  nth_error (strings.Fields line) 1 = Some tok ->
  scanStatus (line :: post) w
  = ([if String.eqb tok "0" then LogPrintln "Seccomp: disabled"
      else if String.eqb tok "1" then LogPrintln "Seccomp: strict mode (1)"
      else if String.eqb tok "2" then LogPrintln "Seccomp: filter mode (2)"
      else LogPrintf "Seccomp: unknown value %s" [tok]],
     Returns tt).
Proof.
  intros Hp Htok. cbn [scanStatus]. rewrite Hp.
  assert (Hlen : Nat.ltb (List.length (strings.Fields line)) 2 = false).
  { apply Nat.ltb_ge.
    destruct (strings.Fields line) as [|a [|b r]]; simpl in *;
      try discriminate; lia. }
  rewrite Hlen. run_go. rewrite Htok.
  destruct (String.eqb tok "0"); [reflexivity|].
  destruct (String.eqb tok "1"); [reflexivity|].
  destruct (String.eqb tok "2"); reflexivity.
Qed.

Lemma scanStatus_absent (w : World) (lines : list string) :
  (forall l, In l lines -> strings.HasPrefix l "Seccomp:" = false) ->
  scanStatus lines w
  = ([LogPrintln
        "Seccomp: field not found in /proc/self/status (kernel may not support Seccomp)"],
     Returns tt).
Proof.
  intros H. rewrite <- (app_nil_r lines). now rewrite scanStatus_skip.
Qed.

Lemma scanStatus_returns (w : World) (lines : list string) :
  snd (scanStatus lines w) = Returns tt.
Proof.
  induction lines as [|line rest IH]; [reflexivity|].
  destruct (strings.HasPrefix line "Seccomp:") eqn:Hp.
  - destruct (Nat.ltb (List.length (strings.Fields line)) 2) eqn:Hlen.
    + apply Nat.ltb_lt in Hlen. now rewrite scanStatus_malformed.
    + apply Nat.ltb_ge in Hlen.
      destruct (nth_error (strings.Fields line) 1) as [tok|] eqn:Htok.
      * now rewrite (scanStatus_mode w line rest tok).
      * apply nth_error_None in Htok. lia.
  - cbn [scanStatus]. now rewrite Hp.
Qed.

Lemma CheckSeccompStatus_readable (w : World) (data : string) :
  ReadFile w "/proc/self/status" = Ok data ->
  CheckSeccompStatus w
  = (IoutilReadFile "/proc/self/status" :: fst (scanStatus (bufio.Lines data) w),
     snd (scanStatus (bufio.Lines data) w)).
Proof.
  intros H. unfold CheckSeccompStatus. run_go. rewrite H.
  now destruct (scanStatus (bufio.Lines data) w) as [tr [[]|]].
Qed.

(** C5: on a readable /proc/self/status, the first line that starts with
    "Seccomp:" decides the finding through its second whitespace-delimited
    token: "0" disabled, "1" strict, "2" filter, anything else "unknown
    value" with the token; with no such line the finding is "field not
    found", which is not the finding of mode "0". *)
Theorem seccomp_mode_classification (w : World) (data : string) :
  ReadFile w "/proc/self/status" = Ok data ->
  (forall (pre : list string) (line : string) (post : list string) (tok : string),
     bufio.Lines data = (pre ++ line :: post)%list ->
     (forall l, In l pre -> strings.HasPrefix l "Seccomp:" = false) ->
     strings.HasPrefix line "Seccomp:" = true ->
     nth_error (strings.Fields line) 1 = Some tok ->
     (tok = "0" ->
      findings CheckSeccompStatus w = [LogPrintln "Seccomp: disabled"])
     /\ (tok = "1" ->
         findings CheckSeccompStatus w = [LogPrintln "Seccomp: strict mode (1)"])
     /\ (tok = "2" ->
         findings CheckSeccompStatus w = [LogPrintln "Seccomp: filter mode (2)"])
     /\ (tok <> "0" -> tok <> "1" -> tok <> "2" ->
         findings CheckSeccompStatus w
         = [LogPrintf "Seccomp: unknown value %s" [tok]]))
  /\ ((forall l, In l (bufio.Lines data) ->
                 strings.HasPrefix l "Seccomp:" = false) ->
      findings CheckSeccompStatus w
      = [LogPrintln
           "Seccomp: field not found in /proc/self/status (kernel may not support Seccomp)"]
      /\ findings CheckSeccompStatus w <> [LogPrintln "Seccomp: disabled"]).
Proof.
  intros Hdata. unfold findings, trace.
  rewrite (CheckSeccompStatus_readable w data Hdata). split.
  - intros pre line post tok Hlines Hpre Hline Htok.
    rewrite Hlines, (scanStatus_skip w pre _ Hpre),
      (scanStatus_mode w line post tok Hline Htok).
    repeat split.
    + now intros ->.
    + now intros ->.
    + now intros ->.
    + intros H0 H1 H2.
      apply String.eqb_neq in H0, H1, H2. now rewrite H0, H1, H2.
  - intros Hno. rewrite (scanStatus_absent w _ Hno).
    split; [reflexivity | discriminate].
Qed.

(** C6: [CheckSeccompStatus] returns without panicking in every world, and
    when the first line that starts with "Seccomp:" splits into fewer than
    two fields it emits the "malformed line" finding and nothing more. *)
Theorem seccomp_malformed_line_is_reported (w : World) :
  outcome CheckSeccompStatus w = Returns tt
  /\ (forall (data : string) (pre : list string) (line : string)
             (post : list string),
        ReadFile w "/proc/self/status" = Ok data ->
        bufio.Lines data = (pre ++ line :: post)%list ->
        (forall l, In l pre -> strings.HasPrefix l "Seccomp:" = false) ->
        strings.HasPrefix line "Seccomp:" = true ->
        List.length (strings.Fields line) < 2 ->
        trace CheckSeccompStatus w
        = [IoutilReadFile "/proc/self/status";
           LogPrintln "seccomp: malformed Seccomp line"]).
Proof.
  split.
  - unfold outcome.
    destruct (ReadFile w "/proc/self/status") as [data|e] eqn:Hdata.
    + rewrite (CheckSeccompStatus_readable w data Hdata).
      apply scanStatus_returns.
    + unfold CheckSeccompStatus. run_go. now rewrite Hdata.
  - intros data pre line post Hdata Hlines Hpre Hline Hlen.
    unfold trace. rewrite (CheckSeccompStatus_readable w data Hdata).
    now rewrite Hlines, (scanStatus_skip w pre _ Hpre),
      (scanStatus_malformed w line post Hline Hlen).
Qed.

(** ** The namespace isolation probe *)

Lemma Sprintf_init_path (ns : string) :
  fmt.Sprintf "/proc/1/ns/%s" [ns] = "/proc/1/ns/" ++ ns.
Proof. cbn [fmt.Sprintf]. now rewrite append_nil_r. Qed.

Lemma Sprintf_self_path (ns : string) :
  fmt.Sprintf "/proc/self/ns/%s" [ns] = "/proc/self/ns/" ++ ns.
Proof. cbn [fmt.Sprintf]. now rewrite append_nil_r. Qed.

Lemma forRange_findings {A : Type} (w : World) (body : A -> Go unit)
    (f : A -> Event) (xs : list A) :
  (forall x, filter isFinding (fst (body x w)) = [f x]
             /\ snd (body x w) = Returns tt) ->
  filter isFinding (fst (forRange xs body w)) = map f xs
  /\ snd (forRange xs body w) = Returns tt.
Proof.
  intros Hbody. induction xs as [|x xs [IHf IHr]]; [split; reflexivity|].
  cbn [forRange map]. unfold bind.
  destruct (Hbody x) as [Hf Hr].
  destruct (body x w) as [tr o]; cbn [fst snd] in Hf, Hr; subst o.
  destruct (forRange xs body w) as [tr' o']; cbn [fst snd] in *.
  now rewrite filter_app, Hf, IHf.
Qed.

Lemma CheckNamespaceIsolation_findings (w : World) :
  findings CheckNamespaceIsolation w
  = LogPrintln "Namespace isolation status:" :: map (kindFinding w) namespaceTypes
  /\ outcome CheckNamespaceIsolation w = Returns tt.
Proof.
  unfold findings, trace, outcome, CheckNamespaceIsolation.
  match goal with
  | |- context [forRange namespaceTypes ?b] => set (body := b)
  end.
  destruct (forRange_findings w body (kindFinding w) namespaceTypes) as [Hf Hr].
  - intros ns. subst body. run_go. rewrite Sprintf_init_path, Sprintf_self_path.
    unfold kindFinding.
    destruct (Readlink w ("/proc/1/ns/" ++ ns)) as [a|e];
      destruct (Readlink w ("/proc/self/ns/" ++ ns)) as [b|e'];
      try (split; reflexivity).
    destruct (String.eqb a b); split; reflexivity.
  - unfold bind, log_Println, emit.
    destruct (forRange namespaceTypes body w) as [tr o]; cbn [fst snd] in *.
    subst o. cbn [app filter isFinding]. now rewrite Hf.
Qed.

(** C7: [CheckNamespaceIsolation] emits, after its heading, one finding per
    namespace kind in the order cgroup, ipc, mnt, net, pid, uts; the
    finding of a kind is "isolated" when both links read and differ, "NOT
    isolated (shared with host, <identity>)" when both read and are equal,
    and "unable to read" when either read fails, whatever happens for the
    other kinds. *)
Theorem namespace_isolation_per_kind (w : World) :
  namespaceTypes = ["cgroup"; "ipc"; "mnt"; "net"; "pid"; "uts"]
  /\ outcome CheckNamespaceIsolation w = Returns tt
  /\ exists fs : list Event,
       findings CheckNamespaceIsolation w
       = LogPrintln "Namespace isolation status:" :: fs
       /\ List.length fs = 6
       /\ forall (i : nat) (ns : string),
            nth_error namespaceTypes i = Some ns ->
            (forall a b,
               Readlink w ("/proc/1/ns/" ++ ns) = Ok a ->
               Readlink w ("/proc/self/ns/" ++ ns) = Ok b ->
               a <> b ->
               nth_error fs i
               = Some (FmtPrintf (TAB ++ "%s: isolated (%s)" ++ NL) [ns; b]))
            /\ (forall a,
                  Readlink w ("/proc/1/ns/" ++ ns) = Ok a ->
                  Readlink w ("/proc/self/ns/" ++ ns) = Ok a ->
                  nth_error fs i
                  = Some (FmtPrintf
                            (TAB ++ "%s: NOT isolated (shared with host, %s)" ++ NL)
                            [ns; a]))
            /\ (forall e,
                  Readlink w ("/proc/1/ns/" ++ ns) = Err e
                  \/ Readlink w ("/proc/self/ns/" ++ ns) = Err e ->
                  nth_error fs i
                  = Some (LogPrintf (TAB ++ "%s: unable to read namespace links")
                                    [ns])).
Proof.
  destruct (CheckNamespaceIsolation_findings w) as [Hf Hr].
  split; [reflexivity|]. split; [exact Hr|].
  exists (map (kindFinding w) namespaceTypes).
  split; [exact Hf|]. split; [reflexivity|].
  intros i ns Hi.
  rewrite (map_nth_error (kindFinding w) i namespaceTypes Hi).
  unfold kindFinding. repeat split.
  - intros a b -> -> Hab. apply String.eqb_neq in Hab. now rewrite Hab.
  - intros a -> ->. now rewrite String.eqb_refl.
  - intros e [-> | ->]; [reflexivity|].
    now destruct (Readlink w ("/proc/1/ns/" ++ ns)).
Qed.

(** ** Trimming on the right *)

Lemma allIn_snoc (cutset s : string) (c : ascii) :
  allIn cutset s = true -> strings.asciiSetContains cutset c = true ->
  allIn cutset (s ++ String c "") = true.
Proof.
  intros Hs Hc. induction s as [|a t IH]; simpl in *.
  - now rewrite Hc.
  - apply andb_true_iff in Hs as [Ha Ht]. rewrite Ha; simpl; auto.
Qed.

Lemma trimRightASCII_strips (cutset : string) (n : nat) :
  forall s : string,
    String.length s <= n ->
    exists tail : string,
      s = strings.trimRightASCII n s cutset ++ tail
      /\ allIn cutset tail = true
      /\ lastByteIn cutset (strings.trimRightASCII n s cutset) = false.
Proof.
  induction n as [|n IH]; intros s Hlen.
  - destruct s; [|simpl in Hlen; lia]. now exists "".
  - cbn [strings.trimRightASCII].
    destruct (String.length s) as [|last] eqn:El.
    + exists "". rewrite append_nil_r. unfold lastByteIn. now rewrite El.
    + destruct (String.get last s) as [c|] eqn:Eg.
      * destruct (strings.asciiSetContains cutset c) eqn:Ec.
        -- destruct (IH (take last s)) as (tail & Hs & Hall & Hlast).
           { rewrite length_take; lia. }
           exists (tail ++ String c ""). split; [|split].
           ++ rewrite <- append_assoc, <- Hs. now apply take_snoc.
           ++ now apply allIn_snoc.
           ++ exact Hlast.
        -- exists "". rewrite append_nil_r. unfold lastByteIn.
           now rewrite El, Eg, Ec.
      * exists "". rewrite append_nil_r. unfold lastByteIn. now rewrite El, Eg.
Qed.

Lemma TrimRight_strips (s cutset : string) :
  cutset <> "" ->
  exists tail : string,
    s = strings.TrimRight s cutset ++ tail
    /\ allIn cutset tail = true
    /\ lastByteIn cutset (strings.TrimRight s cutset) = false.
Proof.
  intros Hc. unfold strings.TrimRight.
  destruct s as [|a t]; [now exists ""|].
  destruct cutset as [|d u]; [now elim Hc|].
  now apply trimRightASCII_strips.
Qed.

(** ** The SELinux probe *)

(** C8: with /sys/fs/selinux/enforce unreadable, [CheckSELinux] emits "not
    detected" and neither reads /proc/self/attr/current nor emits a label;
    with it readable, the trimmed value "1" gives "enforcing", "0" gives
    "permissive", anything else "unexpected enforce value" with the value,
    and then /proc/self/attr/current is read: readable, its content is
    emitted without its trailing NUL and newline bytes, that is, cut before
    the longest suffix made of such bytes (docker_t followed by NUL and
    newline gives docker_t); unreadable, nothing is emitted for it. *)
Theorem selinux_probe (w : World) :
  (forall e,
     ReadFile w "/sys/fs/selinux/enforce" = Err e ->
     trace CheckSELinux w
     = [IoutilReadFile "/sys/fs/selinux/enforce";
        LogPrintln "SELinux: not detected (no selinuxfs)"])
  /\ (forall data,
        ReadFile w "/sys/fs/selinux/enforce" = Ok data ->
        exists (verdict : Event) (labelPart : list Event),
          trace CheckSELinux w
          = IoutilReadFile "/sys/fs/selinux/enforce" :: verdict
            :: IoutilReadFile "/proc/self/attr/current" :: labelPart
          /\ (strings.TrimSpace data = "1" ->
              verdict = LogPrintln "SELinux: enforcing")
          /\ (strings.TrimSpace data = "0" ->
              verdict = LogPrintln "SELinux: permissive (loaded but not enforcing)")
          /\ (strings.TrimSpace data <> "1" -> strings.TrimSpace data <> "0" ->
              verdict = LogPrintf "SELinux: unexpected enforce value %q"
                                  [strings.TrimSpace data])
          /\ (forall label,
                ReadFile w "/proc/self/attr/current" = Ok label ->
                labelPart = [LogPrintf "SELinux: container label: %s"
                                       [strings.TrimRight label (NUL ++ NL)]])
          /\ (forall e,
                ReadFile w "/proc/self/attr/current" = Err e -> labelPart = []))
  /\ (forall label,
        exists tail : string,
          label = strings.TrimRight label (NUL ++ NL) ++ tail
          /\ allIn (NUL ++ NL) tail = true
          /\ lastByteIn (NUL ++ NL) (strings.TrimRight label (NUL ++ NL)) = false)
  /\ strings.TrimRight ("docker_t" ++ NUL ++ NL) (NUL ++ NL) = "docker_t".
Proof.
  split; [|split; [|split]].
  - intros e He. unfold trace, CheckSELinux. run_go. now rewrite He.
  - intros data Hdata.
    exists (if String.eqb (strings.TrimSpace data) "1" then
              LogPrintln "SELinux: enforcing"
            else if String.eqb (strings.TrimSpace data) "0" then
              LogPrintln "SELinux: permissive (loaded but not enforcing)"
            else LogPrintf "SELinux: unexpected enforce value %q"
                           [strings.TrimSpace data]).
    exists (match ReadFile w "/proc/self/attr/current" with
            | Ok label => [LogPrintf "SELinux: container label: %s"
                                     [strings.TrimRight label (NUL ++ NL)]]
            | Err _ => []
            end).
    split; [|split; [|split; [|split; [|split]]]].
    + unfold trace, CheckSELinux. run_go. rewrite Hdata.
      destruct (String.eqb (strings.TrimSpace data) "1");
        [|destruct (String.eqb (strings.TrimSpace data) "0")];
        now destruct (ReadFile w "/proc/self/attr/current").
    + now intros ->.
    + now intros ->.
    + intros H1 H0. apply String.eqb_neq in H1, H0. now rewrite H1, H0.
    + now intros label ->.
    + now intros e ->.
  - intros label. now apply TrimRight_strips.
  - vm_compute. reflexivity.
Qed.

(** ** The Seccomp kernel-support probe *)

Lemma resolver_shape (w : World) (key : string) :
  exists tr val ok,
    readKernelConfigOption key w = (tr, Returns (val, ok))
    /\ filter isFinding tr = [].
Proof.
  destruct (compressedSource w) as [gz|] eqn:E.
  - rewrite (resolver_compressed w key gz E).
    destruct (scanConfig (bufio.Lines gz) key) as [val ok].
    now exists [OsOpen "/proc/config.gz"], val, ok.
  - rewrite (resolver_fallback w key E).
    destruct (ReadFile w "/proc/sys/kernel/osrelease") as [uname|e].
    + destruct (Open w ("/boot/config-" ++ strings.TrimSpace uname)) as [f2|e].
      * destruct (scanConfig (bufio.Lines f2) key) as [val ok].
        now eexists _, val, ok.
      * now eexists _, "", false.
    + now eexists _, "", false.
Qed.

(** C4, as the code has it: with /proc/self/status unreadable the probe
    emits the read failure and stops, without consulting the kernel
    configuration; with it readable, the finding on the "Seccomp:" field
    depends on the status content alone and is followed by the
    CONFIG_SECCOMP finding exactly when the resolver finds the option. *)
Theorem seccomp_support_signals (w : World) :
  (forall e,
     ReadFile w "/proc/self/status" = Err e ->
     trace CheckSeccompKernelSupport w
     = [IoutilReadFile "/proc/self/status";
        LogPrintf "seccomp: unable to read /proc/self/status: %v" [e]])
  /\ (forall data,
        ReadFile w "/proc/self/status" = Ok data ->
        exists cfg : list Event,
          findings CheckSeccompKernelSupport w
          = (if strings.Contains data "Seccomp:" then
               LogPrintln "Seccomp: kernel supports Seccomp"
             else LogPrintln "Seccomp: kernel does NOT support Seccomp") :: cfg
          /\ (forall val,
                outcome (readKernelConfigOption "CONFIG_SECCOMP") w
                = Returns (val, true) ->
                cfg = [LogPrintf "Seccomp: kernel config CONFIG_SECCOMP=%s" [val]])
          /\ (forall val,
                outcome (readKernelConfigOption "CONFIG_SECCOMP") w
                = Returns (val, false) ->
                cfg = [])).
Proof.
  split.
  - intros e He. unfold trace, CheckSeccompKernelSupport. run_go. now rewrite He.
  - intros data Hdata.
    destruct (resolver_shape w "CONFIG_SECCOMP") as (tr & val & ok & Hr & Htr).
    exists (if ok then [LogPrintf "Seccomp: kernel config CONFIG_SECCOMP=%s" [val]]
            else []).
    unfold findings, trace, outcome, CheckSeccompKernelSupport. run_go.
    rewrite Hdata, Hr. cbn [snd]. split; [|split].
    + destruct (strings.Contains data "Seccomp:"); destruct ok;
        cbn [fst app filter isFinding negb]; rewrite filter_app, Htr; reflexivity.
    + now intros val' [= -> ->].
    + now intros val' [= -> ->].
Qed.

(** C4 fails as stated: here the resolver finds CONFIG_SECCOMP=y, yet the
    probe, unable to read /proc/self/status, emits no CONFIG_SECCOMP
    finding. *)
Lemma seccomp_support_config_suppressed :
  outcome (readKernelConfigOption "CONFIG_SECCOMP") worldStatusUnreadable
  = Returns ("y", true)
  /\ findings CheckSeccompKernelSupport worldStatusUnreadable
     = [LogPrintf "seccomp: unable to read /proc/self/status: %v"
                  ["no such file or directory"]]
  /\ ~ In (LogPrintf "Seccomp: kernel config CONFIG_SECCOMP=%s" ["y"])
          (findings CheckSeccompKernelSupport worldStatusUnreadable).
Proof.
  split; [vm_compute; reflexivity|].
  split; [vm_compute; reflexivity|].
  vm_compute. intros [H|[]]; discriminate H.
Qed.

(** ** The AppArmor probe *)

(** C1, as the code has it: in every world [CheckAppArmor] emits one
    build-option finding, then one boot-parameter finding exactly when
    /proc/cmdline is readable, then one runtime-status finding and one
    active-profile finding; no source's failure removes the finding of
    another. *)
Theorem apparmor_finding_groups (w : World) :
  exists (c : Event) (boot : list Event) (m p : Event),
    findings CheckAppArmor w = (c :: boot ++ [m; p])%list
    /\ groupOf c = Some BuildOption
    /\ groupOf m = Some RuntimeStatus
    /\ groupOf p = Some ActiveProfile
    /\ (forall cmdline,
          ReadFile w "/proc/cmdline" = Ok cmdline ->
          exists b, boot = [b] /\ groupOf b = Some BootParameters)
    /\ (forall e, ReadFile w "/proc/cmdline" = Err e -> boot = []).
Proof.
  destruct (resolver_shape w "CONFIG_SECURITY_APPARMOR")
    as (tr & val & ok & Hr & Htr).
  exists (if ok then
            LogPrintf "AppArmor: kernel config CONFIG_SECURITY_APPARMOR=%s" [val]
          else LogPrintln "AppArmor: kernel config not available").
  exists (match ReadFile w "/proc/cmdline" with
          | Ok params =>
              [if strings.Contains params "apparmor=1"
                  || strings.Contains params "security=apparmor" then
                 LogPrintf "AppArmor: enabled via boot parameters (%s)"
                           [strings.TrimSpace params]
               else if strings.Contains params "apparmor=0" then
                 LogPrintln "AppArmor: disabled via boot parameter apparmor=0"
               else LogPrintln "AppArmor: no explicit AppArmor boot parameter found"]
          | Err _ => []
          end).
  exists (match ReadFile w "/sys/module/apparmor/parameters/enabled" with
          | Ok data =>
              if String.eqb (strings.TrimSpace data) "Y" then
                LogPrintln "AppArmor: module is enabled (runtime)"
              else LogPrintln "AppArmor: module is loaded but disabled (runtime)"
          | Err _ => LogPrintln "AppArmor: module not loaded"
          end).
  exists (match ReadFile w "/proc/self/attr/current" with
          | Ok label =>
              if String.eqb (strings.TrimRight label (NUL ++ NL)) ""
                 || String.eqb (strings.TrimRight label (NUL ++ NL)) "unconfined"
              then LogPrintln "AppArmor: container is unconfined (no profile attached)"
              else LogPrintf "AppArmor: container profile: %s"
                             [strings.TrimRight label (NUL ++ NL)]
          | Err _ => LogPrintln "AppArmor: unable to read container profile"
          end).
  split; [|split; [|split; [|split; [|split]]]].
  - unfold findings, trace, CheckAppArmor. run_go. rewrite Hr.
    destruct ok;
      (destruct (ReadFile w "/proc/cmdline") as [params|e1];
       [destruct (strings.Contains params "apparmor=1"
                  || strings.Contains params "security=apparmor");
        [|destruct (strings.Contains params "apparmor=0")]|]);
      (destruct (ReadFile w "/sys/module/apparmor/parameters/enabled") as [data|e2];
       [destruct (String.eqb (strings.TrimSpace data) "Y")|]);
      (destruct (ReadFile w "/proc/self/attr/current") as [label|e3];
       [destruct (String.eqb (strings.TrimRight label (NUL ++ NL)) ""
                  || String.eqb (strings.TrimRight label (NUL ++ NL)) "unconfined")
       |]);
      cbn [fst]; rewrite filter_app, Htr; reflexivity.
  - now destruct ok.
  - destruct (ReadFile w "/sys/module/apparmor/parameters/enabled") as [data|e2];
      [destruct (String.eqb (strings.TrimSpace data) "Y")|]; reflexivity.
  - destruct (ReadFile w "/proc/self/attr/current") as [label|e3];
      [destruct (String.eqb (strings.TrimRight label (NUL ++ NL)) ""
                 || String.eqb (strings.TrimRight label (NUL ++ NL)) "unconfined")
      |]; reflexivity.
  - intros cmdline ->. eexists; split; [reflexivity|].
    destruct (strings.Contains cmdline "apparmor=1"
              || strings.Contains cmdline "security=apparmor");
      [|destruct (strings.Contains cmdline "apparmor=0")]; reflexivity.
  - now intros e ->.
Qed.

(** C1 fails as stated: with /proc/cmdline unreadable only three findings
    are emitted, none of them on the boot parameters. *)
Lemma apparmor_unreadable_cmdline_no_boot_finding :
  findings CheckAppArmor worldCmdlineUnreadable
  = [LogPrintf "AppArmor: kernel config CONFIG_SECURITY_APPARMOR=%s" ["y"];
     LogPrintln "AppArmor: module is enabled (runtime)";
     LogPrintf "AppArmor: container profile: %s" ["docker-default (enforce)"]]
  /\ List.length (findings CheckAppArmor worldCmdlineUnreadable) <> 4
  /\ forallb (fun e => match groupOf e with
                       | Some BootParameters => false
                       | _ => true
                       end)
             (findings CheckAppArmor worldCmdlineUnreadable) = true.
Proof.
  split; [vm_compute; reflexivity|].
  split; [vm_compute; discriminate | vm_compute; reflexivity].
Qed.

(** ** The theorems at work on the example worlds *)

Lemma resolver_prefers_compressed_witness :
  outcome (readKernelConfigOption "CONFIG_SECCOMP") worldContainer
  = Returns ("y", true)
  /\ trace (readKernelConfigOption "CONFIG_SECCOMP") worldContainer
     = [OsOpen "/proc/config.gz"].
Proof.
  apply (resolver_prefers_compressed worldContainer "CONFIG_SECCOMP" gzConfig
           ["# Automatically generated file"] "CONFIG_SECCOMP=y"
           ["# CONFIG_SECURITY_APPARMOR is not set"] "y").
  - reflexivity.
  - vm_compute; reflexivity.
  - intros l [<-|[]]; reflexivity.
  - reflexivity.
Defined.

Lemma resolver_degrades_to_not_found_witness :
  outcome (readKernelConfigOption "CONFIG_SECCOMP") worldNoConfig
  = Returns ("", false).
Proof.
  apply (proj1 (proj2 (resolver_degrades_to_not_found worldNoConfig
                         "CONFIG_SECCOMP"))
           eq_refl ("6.1.0" ++ NL) "no such file or directory");
    reflexivity.
Defined.

Lemma resolver_fallback_only_without_compressed_witness :
  outcome (readKernelConfigOption "CONFIG_ONLY_IN_BOOT") worldContainer
  = Returns ("", false)
  /\ compressedSource worldNoConfig = None.
Proof.
  split.
  - apply (proj1 (resolver_fallback_only_without_compressed
                    worldContainer "CONFIG_ONLY_IN_BOOT") gzConfig eq_refl).
    vm_compute. intros l [<-|[<-|[<-|[]]]]; reflexivity.
  - apply (proj2 (resolver_fallback_only_without_compressed
                    worldNoConfig "CONFIG_SECCOMP")
             (IoutilReadFile "/proc/sys/kernel/osrelease")).
    + vm_compute. right; left; reflexivity.
    + discriminate.
Defined.

Lemma seccomp_mode_classification_witness :
  findings CheckSeccompStatus worldContainer = [LogPrintln "Seccomp: filter mode (2)"].
Proof.
  destruct (seccomp_mode_classification worldContainer statusFilter eq_refl)
    as [H _].
  destruct (H ["Name:" ++ TAB ++ "cat"] ("Seccomp:" ++ TAB ++ "2")
              ["Seccomp_filters:" ++ TAB ++ "1"] "2") as (_ & _ & H2 & _).
  - vm_compute; reflexivity.
  - intros l [<-|[]]; reflexivity.
  - reflexivity.
  - vm_compute; reflexivity.
  - apply H2; reflexivity.
Defined.

Lemma seccomp_malformed_line_is_reported_witness :
  trace CheckSeccompStatus worldNoConfig
  = [IoutilReadFile "/proc/self/status";
     LogPrintln "seccomp: malformed Seccomp line"].
Proof.
  apply (proj2 (seccomp_malformed_line_is_reported worldNoConfig)
           ("Name:" ++ TAB ++ "cat" ++ NL ++ "Seccomp:" ++ NL
            ++ "Seccomp:" ++ TAB ++ "2" ++ NL)
           ["Name:" ++ TAB ++ "cat"] "Seccomp:" ["Seccomp:" ++ TAB ++ "2"]).
  - reflexivity.
  - vm_compute; reflexivity.
  - intros l [<-|[]]; reflexivity.
  - reflexivity.
  - vm_compute; lia.
Defined.

Lemma namespace_isolation_per_kind_witness :
  exists fs : list Event,
    findings CheckNamespaceIsolation worldContainer
    = LogPrintln "Namespace isolation status:" :: fs
    /\ nth_error fs 0
       = Some (FmtPrintf (TAB ++ "%s: isolated (%s)" ++ NL)
                         ["cgroup"; "cgroup:[4026532500]"])
    /\ nth_error fs 1
       = Some (FmtPrintf (TAB ++ "%s: NOT isolated (shared with host, %s)" ++ NL)
                         ["ipc"; "ipc:[4026531839]"])
    /\ nth_error fs 2
       = Some (LogPrintf (TAB ++ "%s: unable to read namespace links") ["mnt"]).
Proof.
  destruct (namespace_isolation_per_kind worldContainer)
    as (_ & _ & fs & Hfs & _ & H).
  exists fs. split; [exact Hfs|]. split; [|split].
  - apply (proj1 (H 0 "cgroup" eq_refl)
             "cgroup:[4026531835]" "cgroup:[4026532500]");
      [reflexivity | reflexivity | discriminate].
  - apply (proj1 (proj2 (H 1 "ipc" eq_refl)) "ipc:[4026531839]"); reflexivity.
  - apply (proj2 (proj2 (H 2 "mnt" eq_refl)) "no such file or directory").
    left; reflexivity.
Defined.

Lemma selinux_probe_witness :
  exists (verdict : Event) (labelPart : list Event),
    trace CheckSELinux worldContainer
    = IoutilReadFile "/sys/fs/selinux/enforce" :: verdict
      :: IoutilReadFile "/proc/self/attr/current" :: labelPart
    /\ verdict = LogPrintln "SELinux: enforcing"
    /\ labelPart = [LogPrintf "SELinux: container label: %s" ["docker_t"]]
    /\ trace CheckSELinux worldNoConfig
       = [IoutilReadFile "/sys/fs/selinux/enforce";
          LogPrintln "SELinux: not detected (no selinuxfs)"].
Proof.
  destruct (selinux_probe worldContainer) as (_ & H & _ & _).
  destruct (H ("1" ++ NL) eq_refl) as (verdict & labelPart & Ht & H1 & _ & _ & Hl & _).
  exists verdict, labelPart. split; [exact Ht|]. split; [|split].
  - apply H1. vm_compute; reflexivity.
  - rewrite (Hl ("docker_t" ++ NUL ++ NL) eq_refl). vm_compute; reflexivity.
  - apply (proj1 (selinux_probe worldNoConfig) "no such file or directory").
    reflexivity.
Defined.

Lemma seccomp_support_signals_witness :
  exists cfg : list Event,
    findings CheckSeccompKernelSupport worldContainer
    = LogPrintln "Seccomp: kernel supports Seccomp" :: cfg
    /\ cfg = [LogPrintf "Seccomp: kernel config CONFIG_SECCOMP=%s" ["y"]].
Proof.
  destruct (proj2 (seccomp_support_signals worldContainer) statusFilter eq_refl)
    as (cfg & Hf & Hyes & _).
  exists cfg. split.
  - rewrite Hf. vm_compute; reflexivity.
  - apply Hyes. vm_compute; reflexivity.
Defined.

Lemma apparmor_finding_groups_witness :
  exists (c : Event) (boot : list Event) (m p : Event),
    findings CheckAppArmor worldCmdlineUnreadable = (c :: boot ++ [m; p])%list
    /\ boot = [].
Proof.
  destruct (apparmor_finding_groups worldCmdlineUnreadable)
    as (c & boot & m & p & Hf & _ & _ & _ & _ & Hno).
  exists c, boot, m, p. split; [exact Hf|].
  apply (Hno "no such file or directory"). reflexivity.
Defined.

(** * Further properties of the probes and of the library they rest on *)

(** ** More on strings *)

Lemma length_append (a b : string) :
  String.length (a ++ b) = String.length a + String.length b.
Proof. induction a as [|x a IH]; simpl; [reflexivity | now rewrite IH]. Qed.

Lemma take_append (a b : string) : take (String.length a) (a ++ b) = a.
Proof. induction a as [|x a IH]; simpl; [now destruct b | now rewrite IH]. Qed.

Lemma drop_append_cons (a : string) (c : ascii) (b : string) :
  drop (S (String.length a)) (a ++ String c b) = b.
Proof. induction a as [|x a IH]; simpl; [now destruct b | exact IH]. Qed.

Lemma get_append_here (a : string) (c : ascii) (b : string) :
  String.get (String.length a) (a ++ String c b) = Some c.
Proof. induction a as [|x a IH]; simpl; [reflexivity | exact IH]. Qed.

Lemma get_append_right (a b : string) (k : nat) :
  String.get (String.length a + k) (a ++ b) = String.get k b.
Proof. induction a as [|x a IH]; simpl; [reflexivity | exact IH]. Qed.

Lemma get_some_lt (s : string) :
  forall (i : nat) (c : ascii), String.get i s = Some c -> i < String.length s.
Proof.
  induction s as [|a t IH]; intros i c H; simpl in *; [discriminate|].
  destruct i as [|i]; [lia|]. specialize (IH i c H). lia.
Qed.

Lemma get_take (s : string) :
  forall i n : nat, i < n -> String.get i (take n s) = String.get i s.
Proof.
  induction s as [|a t IH]; intros i n H.
  - now destruct n.
  - destruct n as [|n]; [lia|]. simpl. destruct i as [|i]; [reflexivity|].
    apply IH; lia.
Qed.

(** Induction on a string from its right end. *)
Lemma string_snoc_ind (P : string -> Prop) :
  P "" ->
  (forall (s : string) (c : ascii), P s -> P (s ++ String c "")) ->
  forall s : string, P s.
Proof.
  intros Hnil Hsnoc s.
  remember (String.length s) as n eqn:En. revert s En.
  induction n as [|n IH]; intros s En.
  - destruct s; [exact Hnil | discriminate].
  - symmetry in En. destruct (get_last s n En) as [c Hc].
    rewrite (take_snoc s n c En Hc). apply Hsnoc, IH.
    rewrite length_take; lia.
Qed.

(** ** Substring search *)

Lemma Contains_unfold (s sub : string) :
  strings.Contains s sub
  = strings.HasPrefix s sub
    || match s with
       | EmptyString => false
       | String _ t => strings.Contains t sub
       end.
Proof. now destruct s. Qed.

Lemma Contains_intro (sub post : string) (pre : string) :
  strings.Contains (pre ++ sub ++ post) sub = true.
Proof.
  induction pre as [|c pre IH].
  - rewrite Contains_unfold. unfold strings.HasPrefix.
    cbn [append]. now rewrite prefix_append.
  - rewrite Contains_unfold. cbn [append]. rewrite IH. apply orb_true_r.
Qed.

Lemma Contains_elim (sub : string) (s : string) :
  strings.Contains s sub = true -> occurs sub s.
Proof.
  induction s as [|c s IH]; rewrite Contains_unfold; intros H;
    apply orb_true_iff in H as [H|H].
  - exists "", (drop (String.length sub) ""). now apply prefix_split.
  - discriminate.
  - exists "", (drop (String.length sub) (String c s)). now apply prefix_split.
  - destruct (IH H) as (pre & post & ->). now exists (String c pre), post.
Qed.

Lemma Contains_occurs (s sub : string) :
  strings.Contains s sub = true <-> occurs sub s.
Proof.
  split; [apply Contains_elim|].
  intros (pre & post & ->). apply Contains_intro.
Qed.

Lemma Contains_false (s sub : string) :
  strings.Contains s sub = false <-> ~ occurs sub s.
Proof.
  rewrite <- Contains_occurs. now destruct (strings.Contains s sub).
Qed.

(** ** The line scanner *)

Lemma IndexByte_split (c : ascii) (s : string) :
  forall i : nat,
    IndexByte s c = Some i -> s = take i s ++ String c (drop (S i) s).
Proof.
  induction s as [|d t IH]; intros i H; simpl in H; [discriminate|].
  destruct (Ascii.eqb_spec d c) as [->|_].
  - injection H as <-. reflexivity.
  - destruct (IndexByte t c) as [j|]; [|discriminate].
    injection H as <-. cbn [take drop append]. f_equal. now apply IH.
Qed.

Lemma IndexByte_append (c : ascii) (rest : string) (l : string) :
  IndexByte l c = None ->
  IndexByte (l ++ String c rest) c = Some (String.length l).
Proof.
  induction l as [|d l IH]; intros H; simpl in *.
  - now rewrite Ascii.eqb_refl.
  - destruct (Ascii.eqb d c); [discriminate|].
    destruct (IndexByte l c); [discriminate|]. now rewrite IH.
Qed.

Lemma dropCR_prefix (data : string) :
  exists r : string, data = bufio.dropCR data ++ r.
Proof.
  unfold bufio.dropCR.
  destruct (String.length data) as [|last] eqn:El.
  - exists "". now rewrite append_nil_r.
  - destruct (String.get last data) as [c|] eqn:Eg.
    + destruct (Ascii.eqb c bufio.CR).
      * exists (String c ""). now apply take_snoc.
      * exists "". now rewrite append_nil_r.
    + exists "". now rewrite append_nil_r.
Qed.

Lemma prefix_append_r (p a b : string) :
  String.prefix p a = true -> String.prefix p (a ++ b) = true.
Proof.
  intros H. rewrite (prefix_split p a H), append_assoc. apply prefix_append.
Qed.

(** Every line the scanner delivers is a stretch of the text it reads,
    less one terminal carriage return. *)
Lemma scanLoop_slices (fuel : nat) :
  forall (s l : string),
    In l (bufio.scanLoop fuel s) ->
    exists raw : string, occurs raw s /\ l = bufio.dropCR raw.
Proof.
  induction fuel as [|fuel IH]; intros s l Hin; [destruct Hin|].
  cbn [bufio.scanLoop] in Hin.
  destruct (IndexByte s bufio.LF) as [i|] eqn:Ei.
  - destruct (bufio.MaxScanTokenSize <=? N.of_nat i)%N; [destruct Hin|].
    pose proof (IndexByte_split _ _ _ Ei) as Hs.
    destruct Hin as [<-|Hin].
    + exists (take i s). split; [|reflexivity].
      exists "", (String bufio.LF (drop (S i) s)). exact Hs.
    + destruct (IH _ _ Hin) as (raw & (pre & post & Hraw) & ->).
      exists raw. split; [|reflexivity].
      exists (take i s ++ String bufio.LF pre), post.
      rewrite Hs at 1. rewrite Hraw, append_assoc. reflexivity.
  - destruct s as [|c t]; [destruct Hin|].
    destruct (bufio.MaxScanTokenSize <=? N.of_nat (String.length (String c t)))%N;
      [destruct Hin|].
    destruct Hin as [<-|[]].
    exists (String c t). split; [|reflexivity].
    exists "", "". cbn [append]. now rewrite append_nil_r.
Qed.

Lemma Lines_prefix_occurs (data line p : string) :
  In line (bufio.Lines data) ->
  strings.HasPrefix line p = true ->
  occurs p data.
Proof.
  intros Hin Hp.
  destruct (scanLoop_slices _ _ _ Hin) as (raw & (pre & post & ->) & ->).
  destruct (dropCR_prefix raw) as [r Hr].
  unfold strings.HasPrefix in Hp.
  pose proof (prefix_append_r p _ r Hp) as Hraw. rewrite <- Hr in Hraw.
  exists pre, (drop (String.length p) raw ++ post).
  f_equal. rewrite (prefix_split p raw Hraw) at 1. apply append_assoc.
Qed.

Lemma scanLoop_step (fuel : nat) (s : string) :
  bufio.scanLoop (S fuel) s
  = match IndexByte s bufio.LF with
    | Some i =>
        if (bufio.MaxScanTokenSize <=? N.of_nat i)%N then []
        else bufio.dropCR (take i s) :: bufio.scanLoop fuel (drop (S i) s)
    | None =>
        match s with
        | EmptyString => []
        | String _ _ =>
            if (bufio.MaxScanTokenSize <=? N.of_nat (String.length s))%N then []
            else [bufio.dropCR s]
        end
    end.
Proof. reflexivity. Qed.

(** A line without newline, shorter than the scanner's buffer and followed
    by a newline, is delivered (less one terminal carriage return) before
    the lines of the rest. *)
Lemma Lines_cons (l rest : string) :
  IndexByte l bufio.LF = None ->
  (N.of_nat (String.length l) < bufio.MaxScanTokenSize)%N ->
  bufio.Lines (l ++ NL ++ rest) = bufio.dropCR l :: bufio.Lines rest.
Proof.
  intros Hl Hlen. unfold bufio.Lines, NL. cbn [append].
  change (ascii_of_nat 10) with bufio.LF.
  rewrite scanLoop_step at 1.
  rewrite (IndexByte_append bufio.LF rest l Hl).
  apply N.leb_gt in Hlen. rewrite Hlen.
  rewrite take_append, drop_append_cons. f_equal.
  apply scanLoop_fuel; rewrite ?length_append; cbn [String.length]; lia.
Qed.

(** ** Trimming a padded text *)

Lemma allIn_append (cutset a b : string) :
  allIn cutset (a ++ b) = allIn cutset a && allIn cutset b.
Proof.
  induction a as [|x a IH]; simpl; [reflexivity|].
  now rewrite IH, andb_assoc.
Qed.

Lemma trimRightASCII_fixed (cutset core : string) (n : nat) :
  lastByteIn cutset core = false ->
  strings.trimRightASCII n core cutset = core.
Proof.
  intros H. destruct n as [|n]; [reflexivity|]. cbn [strings.trimRightASCII].
  unfold lastByteIn in H.
  destruct (String.length core) as [|last]; [reflexivity|].
  destruct (String.get last core) as [c|]; [|reflexivity]. now rewrite H.
Qed.

Lemma trimRightASCII_core (cutset core : string) :
  lastByteIn cutset core = false ->
  forall (tail : string) (n : nat),
    String.length (core ++ tail) <= n ->
    allIn cutset tail = true ->
    strings.trimRightASCII n (core ++ tail) cutset = core.
Proof.
  intros Hcore tail. induction tail as [|tail c IH] using string_snoc_ind;
    intros n Hn Hall.
  - rewrite append_nil_r. now apply trimRightASCII_fixed.
  - rewrite allIn_append in Hall. apply andb_true_iff in Hall as [Ht Hc].
    simpl in Hc. rewrite orb_false_r in Hc || rewrite andb_true_r in Hc.
    rewrite <- append_assoc in *.
    rewrite length_append in Hn. cbn [String.length] in Hn.
    destruct n as [|n]; [lia|]. cbn [strings.trimRightASCII].
    rewrite length_append. cbn [String.length]. rewrite Nat.add_1_r.
    rewrite get_append_here, Hc, take_append.
    apply IH; [lia | exact Ht].
Qed.

(** [TrimRight] undoes any padding made of bytes of the cutset. *)
Lemma TrimRight_core (cutset core tail : string) :
  cutset <> "" ->
  lastByteIn cutset core = false ->
  allIn cutset tail = true ->
  strings.TrimRight (core ++ tail) cutset = core.
Proof.
  intros Hc Hcore Htail. unfold strings.TrimRight.
  destruct (core ++ tail) as [|a t] eqn:E.
  - destruct core; [reflexivity | discriminate].
  - destruct cutset as [|d u]; [now elim Hc|].
    rewrite <- E. now apply trimRightASCII_core.
Qed.

Lemma isAsciiSpace_IsSpace (c : ascii) :
  isAsciiSpace c = true ->
  unicode.IsSpace (byte c) = true /\ (byte c <? 128)%Z = true.
Proof.
  unfold isAsciiSpace. intros H.
  repeat (apply orb_true_iff in H as [H|H]);
    apply Z.eqb_eq in H; rewrite H; split; reflexivity.
Qed.

Lemma asciiSpaces_get (s : string) :
  asciiSpaces s = true ->
  forall (k : nat) (c : ascii), String.get k s = Some c -> isAsciiSpace c = true.
Proof.
  induction s as [|a t IH]; intros H k c Hk; simpl in *; [discriminate|].
  apply andb_true_iff in H as [Ha Ht].
  destruct k as [|k]; [now injection Hk as <- | eauto].
Qed.

Lemma DecodeRuneInString_ascii (c : ascii) (t : string) :
  (byte c <? 128)%Z = true ->
  utf8.DecodeRuneInString (String c t) = (byte c, 1).
Proof.
  intros H. unfold utf8.DecodeRuneInString. cbv zeta.
  unfold utf8.first. now rewrite H.
Qed.

Lemma DecodeLastRuneInString_ascii (s : string) (i : nat) (c : ascii) :
  String.get i s = Some c ->
  (byte c <? 128)%Z = true ->
  utf8.DecodeLastRuneInString (take (S i) s) = (byte c, 1).
Proof.
  intros Hget Hc. unfold utf8.DecodeLastRuneInString. cbv zeta.
  pose proof (get_some_lt s i c Hget) as Hlt.
  rewrite length_take by lia.
  rewrite get_take by lia. rewrite Hget.
  unfold utf8.RuneSelf. now rewrite Hc.
Qed.

Lemma indexNotFunc_spaces (c0 : ascii) (t : string) (pre : string) :
  isAsciiGraph c0 = true ->
  asciiSpaces pre = true ->
  forall fuel : nat,
    String.length pre < fuel ->
    strings.indexNotFunc fuel unicode.IsSpace (pre ++ String c0 t)
    = Some (String.length pre).
Proof.
  intros Hc0. apply andb_true_iff in Hc0 as [Hlow Hns].
  apply negb_true_iff in Hns.
  induction pre as [|c pre IH]; intros Hpre fuel Hfuel;
    (destruct fuel as [|fuel]; [simpl in Hfuel; lia|]);
    cbn [append strings.indexNotFunc].
  - rewrite (DecodeRuneInString_ascii c0 t Hlow). now rewrite Hns.
  - simpl in Hpre. apply andb_true_iff in Hpre as [Hc Hpre].
    destruct (isAsciiSpace_IsSpace c Hc) as [Hsp Hl].
    rewrite (DecodeRuneInString_ascii c _ Hl), Hsp. cbn [drop].
    rewrite IH; [reflexivity | exact Hpre | simpl in Hfuel; lia].
Qed.

Lemma TrimLeftFunc_spaces (pre core : string) :
  asciiSpaces pre = true ->
  (exists c0 t, core = String c0 t /\ isAsciiGraph c0 = true) ->
  strings.TrimLeftFunc (pre ++ core) unicode.IsSpace = core.
Proof.
  intros Hpre (c0 & t & -> & Hc0). unfold strings.TrimLeftFunc.
  rewrite (indexNotFunc_spaces c0 t pre Hc0 Hpre).
  - apply drop_append.
  - rewrite length_append. cbn [String.length]. lia.
Qed.

Lemma get_append_left (a b : string) :
  forall i : nat, i < String.length a -> String.get i (a ++ b) = String.get i a.
Proof.
  induction a as [|x a IH]; intros i H; simpl in *; [lia|].
  destruct i as [|i]; [reflexivity|]. apply IH; lia.
Qed.

Lemma lastIndexNotFunc_spaces (core post : string) :
  asciiSpaces post = true ->
  forall k fuel : nat,
    k <= String.length post ->
    String.length core + k <= fuel ->
    strings.lastIndexNotFunc fuel unicode.IsSpace (core ++ post)
      (String.length core + k)
    = strings.lastIndexNotFunc (fuel - k) unicode.IsSpace (core ++ post)
        (String.length core).
Proof.
  intros Hpost. induction k as [|k IH]; intros fuel Hk Hfuel.
  - now rewrite Nat.add_0_r, Nat.sub_0_r.
  - destruct fuel as [|fuel]; [lia|].
    rewrite Nat.add_succ_r. cbn [strings.lastIndexNotFunc].
    destruct (String.get k post) as [c|] eqn:Ek.
    + pose proof (asciiSpaces_get post Hpost k c Ek) as Hc.
      destruct (isAsciiSpace_IsSpace c Hc) as [Hsp Hl].
      rewrite (DecodeLastRuneInString_ascii (core ++ post)
                 (String.length core + k) c)
        by (rewrite ?get_append_right; assumption).
      rewrite Hsp.
      replace (S (String.length core + k) - 1) with (String.length core + k)
        by lia.
      rewrite IH by lia. reflexivity.
    + exfalso. clear - Ek Hk. revert k Ek Hk.
      induction post as [|a t IHt]; intros k Ek Hk; simpl in *; [lia|].
      destruct k as [|k]; [discriminate|]. apply (IHt k Ek). lia.
Qed.

Lemma TrimRightFunc_spaces (core post : string) :
  asciiSpaces post = true ->
  (exists c1, lastByte core = Some c1 /\ isAsciiGraph c1 = true) ->
  strings.TrimRightFunc (core ++ post) unicode.IsSpace = core.
Proof.
  intros Hpost (c1 & Hlast & Hc1). apply andb_true_iff in Hc1 as [Hlow Hns].
  apply negb_true_iff in Hns. unfold lastByte in Hlast.
  destruct (String.length core) as [|j] eqn:El; [discriminate|].
  assert (Hget : String.get j (core ++ post) = Some c1).
  { rewrite get_append_left; [exact Hlast | lia]. }
  unfold strings.TrimRightFunc.
  rewrite length_append, El.
  rewrite <- El at 2.
  rewrite (lastIndexNotFunc_spaces core post Hpost) by (rewrite ?El; lia).
  replace (S j + String.length post - String.length post) with (S j) by lia.
  rewrite El. cbn [strings.lastIndexNotFunc].
  rewrite (DecodeLastRuneInString_ascii _ j c1 Hget Hlow), Hns.
  replace (S j - 1) with j by lia. rewrite Hget.
  unfold utf8.RuneSelf.
  replace (128 <=? byte c1)%Z with false
    by (symmetry; apply Z.leb_gt; now apply Z.ltb_lt).
  rewrite <- El. apply take_append.
Qed.

(** [TrimSpace] undoes any padding made of ASCII white space around a text
    that starts and ends with ASCII bytes that are not white space. *)
Lemma TrimSpace_padded (pre core post : string) :
  asciiSpaces pre = true ->
  asciiSpaces post = true ->
  graphBounded core = true ->
  strings.TrimSpace (pre ++ core ++ post) = core.
Proof.
  intros Hpre Hpost Hcore. unfold graphBounded in Hcore.
  destruct core as [|c0 t] eqn:Ec; [discriminate|].
  destruct (lastByte (String c0 t)) as [c1|] eqn:El; [|discriminate].
  apply andb_true_iff in Hcore as [H0 H1]. rewrite <- Ec in *.
  unfold strings.TrimSpace.
  rewrite (TrimLeftFunc_spaces pre (core ++ post) Hpre).
  - apply TrimRightFunc_spaces; eauto.
  - exists c0, (t ++ post). split; [now rewrite Ec | exact H0].
Qed.

(** ** More on the configuration line matcher *)

Lemma append_inv_l (a b c : string) : a ++ b = a ++ c -> b = c.
Proof.
  induction a as [|x a IH]; simpl; intros H; [exact H|].
  injection H as H. now apply IH.
Qed.

Lemma matchConfigLine_value (L K val : string) :
  matchConfigLine L K = (val, true) ->
  L = K ++ "=" ++ val \/ (L = "# " ++ K ++ " is not set" /\ val = "n").
Proof.
  unfold matchConfigLine, strings.TrimPrefix, strings.HasPrefix.
  destruct (String.prefix (K ++ "=") L) eqn:Hp.
  - intros [= <-]. left. rewrite <- append_assoc. now apply prefix_split.
  - destruct (String.eqb_spec L ("# " ++ K ++ " is not set")) as [->|_];
      [|discriminate].
    intros [= <-]. now right.
Qed.

Lemma matchConfigLine_unmatched (L K val : string) :
  matchConfigLine L K = (val, false) -> val = "".
Proof.
  unfold matchConfigLine.
  destruct (strings.HasPrefix L (K ++ "=")); [discriminate|].
  destruct (String.eqb L ("# " ++ K ++ " is not set")); [discriminate|].
  now intros [= <-].
Qed.

(** X7: The matcher is exact: text in front of the key (white space, say)
    and text behind "is not set" both prevent a match. *)
Theorem matchConfigLine_exact (K V : string) :
  (forall (c : ascii) (p : string),
     c <> "#"%char ->
     noEquals (String c p) = true ->
     matchConfigLine (String c p ++ K ++ "=" ++ V) K = ("", false))
  /\ (forall t : string,
        t <> "" ->
        matchConfigLine ("# " ++ K ++ " is not set" ++ t) K = ("", false)).
Proof.
  split.
  - intros c p Hc Hp. unfold matchConfigLine, strings.HasPrefix.
    rewrite (key_equals_no_overlap K (String c p) ("=" ++ V))
      by (discriminate || exact Hp).
    destruct (String.eqb_spec (String c p ++ K ++ "=" ++ V)
                ("# " ++ K ++ " is not set")) as [E|_]; [|reflexivity].
    injection E as E _. now elim Hc.
  - intros t Ht. unfold matchConfigLine, strings.HasPrefix.
    rewrite (key_equals_no_overlap K "# " (" is not set" ++ t))
      by (discriminate || reflexivity).
    destruct (String.eqb_spec ("# " ++ K ++ " is not set" ++ t)
                ("# " ++ K ++ " is not set")) as [E|_]; [|reflexivity].
    apply append_inv_l, append_inv_l in E.
    rewrite <- (append_nil_r " is not set") in E at 2.
    apply append_inv_l in E. now elim Ht.
Qed.

Lemma matchConfigLine_exact_witness :
  matchConfigLine (" " ++ "CONFIG_SECCOMP" ++ "=" ++ "y") "CONFIG_SECCOMP"
  = ("", false)
  /\ matchConfigLine ("# " ++ "CONFIG_SECCOMP" ++ " is not set" ++ " ")
       "CONFIG_SECCOMP"
     = ("", false).
Proof.
  destruct (matchConfigLine_exact "CONFIG_SECCOMP" "y") as [H1 H2].
  split.
  - apply (H1 " "%char ""); [discriminate | reflexivity].
  - apply (H2 " "). discriminate.
Defined.

(** ** More on the kernel configuration resolver *)

Lemma scanConfig_found (key : string) (lines : list string) (val : string) :
  scanConfig lines key = (val, true) ->
  exists line, In line lines /\ matchConfigLine line key = (val, true).
Proof.
  induction lines as [|l lines IH]; simpl; [discriminate|].
  destruct (matchConfigLine l key) as [v ok] eqn:E. destruct ok.
  - intros [= <-]. exists l. auto.
  - intros H. destruct (IH H) as (line & Hin & Hm). exists line. auto.
Qed.

Lemma scanConfig_not_found (key : string) (lines : list string) (val : string) :
  scanConfig lines key = (val, false) -> val = "".
Proof.
  induction lines as [|l lines IH]; simpl; [now intros [= <-]|].
  destruct (matchConfigLine l key) as [v ok]. destruct ok; [discriminate|].
  exact IH.
Qed.

(** The text the resolver scans, if it gets to scan one: the decompressed
    /proc/config.gz, else /boot/config-<release>. *)
Lemma resolver_scans (w : World) (key : string) (r : string * bool) :
  outcome (readKernelConfigOption key) w = Returns r ->
  r = ("", false)
  \/ exists src : string,
       r = scanConfig (bufio.Lines src) key
       /\ (compressedSource w = Some src
           \/ (compressedSource w = None
               /\ exists uname,
                    ReadFile w "/proc/sys/kernel/osrelease" = Ok uname
                    /\ Open w ("/boot/config-" ++ strings.TrimSpace uname)
                       = Ok src)).
Proof.
  unfold outcome.
  destruct (compressedSource w) as [gz|] eqn:E.
  - rewrite (resolver_compressed w key gz E). cbn [snd]. intros [= <-].
    right. exists gz. auto.
  - rewrite (resolver_fallback w key E).
    destruct (ReadFile w "/proc/sys/kernel/osrelease") as [uname|e];
      cbn [snd]; [|intros [= <-]; now left].
    destruct (Open w ("/boot/config-" ++ strings.TrimSpace uname)) as [f2|e]
      eqn:Eo; intros [= <-]; [|now left].
    right. exists f2. split; [reflexivity|]. right. split; [reflexivity|].
    exists uname. auto.
Qed.

(** X2: A value reported as found was read off a line of the source that was
    scanned: either the line key=value, or the line "# key is not set" with
    the value "n".  A result reported as not found carries the empty
    value. *)
Theorem resolver_found_is_sound (w : World) (key val : string) :
  (outcome (readKernelConfigOption key) w = Returns (val, true) ->
   exists src line : string,
     (compressedSource w = Some src
      \/ (compressedSource w = None
          /\ exists uname,
               ReadFile w "/proc/sys/kernel/osrelease" = Ok uname
               /\ Open w ("/boot/config-" ++ strings.TrimSpace uname) = Ok src))
     /\ In line (bufio.Lines src)
     /\ (line = key ++ "=" ++ val
         \/ (line = "# " ++ key ++ " is not set" /\ val = "n")))
  /\ (outcome (readKernelConfigOption key) w = Returns (val, false) ->
      val = "").
Proof.
  split; intros H; destruct (resolver_scans w key _ H) as [E|(src & E & Hsrc)];
    try discriminate.
  - symmetry in E. destruct (scanConfig_found key _ val E) as (line & Hin & Hm).
    exists src, line. split; [exact Hsrc|]. split; [exact Hin|].
    now apply matchConfigLine_value.
  - now injection E.
  - symmetry in E. now apply scanConfig_not_found in E.
Qed.

Lemma resolver_found_is_sound_witness :
  exists src line : string,
    In line (bufio.Lines src)
    /\ (line = "CONFIG_SECURITY_APPARMOR" ++ "=" ++ "n"
        \/ (line = "# " ++ "CONFIG_SECURITY_APPARMOR" ++ " is not set"
            /\ "n" = "n")).
Proof.
  destruct (proj1 (resolver_found_is_sound worldContainer
                     "CONFIG_SECURITY_APPARMOR" "n"))
    as (src & line & _ & Hin & Hline).
  - vm_compute; reflexivity.
  - exists src, line. split; [exact Hin | exact Hline].
Defined.

(** X1: The counterpart of the compressed case: without a usable
    /proc/config.gz, a readable release and an openable
    /boot/config-<release> give the value of that file's first matching
    line, after exactly three system calls. *)
Theorem resolver_fallback_finds
    (w : World) (key uname f2 : string) (pre : list string) (line : string)
    (post : list string) (val : string) :
  compressedSource w = None ->
  ReadFile w "/proc/sys/kernel/osrelease" = Ok uname ->
  Open w ("/boot/config-" ++ strings.TrimSpace uname) = Ok f2 ->
  bufio.Lines f2 = (pre ++ line :: post)%list ->
  (forall l, In l pre -> snd (matchConfigLine l key) = false) ->
  matchConfigLine line key = (val, true) ->
  outcome (readKernelConfigOption key) w = Returns (val, true)
  /\ trace (readKernelConfigOption key) w
     = [OsOpen "/proc/config.gz";
        IoutilReadFile "/proc/sys/kernel/osrelease";
        OsOpen ("/boot/config-" ++ strings.TrimSpace uname)].
Proof.
  intros Hgz Hu Ho Hlines Hpre Hline. unfold outcome, trace.
  rewrite (resolver_fallback w key Hgz), Hu. cbn [fst snd].
  rewrite Ho, Hlines, (scanConfig_first_match key pre line post val Hpre Hline).
  split; reflexivity.
Qed.

(** X3: Which files the resolver touches does not depend on the key: it opens
    /proc/config.gz first, makes at most two more system calls, and emits
    nothing. *)
Theorem resolver_calls_ignore_key (w : World) (key key' : string) :
  exists rest : list Event,
    trace (readKernelConfigOption key) w = OsOpen "/proc/config.gz" :: rest
    /\ List.length rest <= 2
    /\ trace (readKernelConfigOption key') w
       = trace (readKernelConfigOption key) w
    /\ findings (readKernelConfigOption key) w = [].
Proof.
  unfold findings, trace.
  destruct (compressedSource w) as [gz|] eqn:E.
  - rewrite !(resolver_compressed w _ gz E). exists []. simpl. auto.
  - rewrite !(resolver_fallback w _ E).
    destruct (ReadFile w "/proc/sys/kernel/osrelease") as [uname|e];
      eexists; cbn [fst]; (split; [reflexivity|]); simpl; auto.
Qed.

Lemma resolver_fallback_finds_witness :
  outcome (readKernelConfigOption "CONFIG_ONLY_IN_BOOT") worldBootOnly
  = Returns ("y", true)
  /\ trace (readKernelConfigOption "CONFIG_ONLY_IN_BOOT") worldBootOnly
     = [OsOpen "/proc/config.gz";
        IoutilReadFile "/proc/sys/kernel/osrelease";
        OsOpen ("/boot/config-" ++ strings.TrimSpace ("6.1.0" ++ NL))].
Proof.
  apply (resolver_fallback_finds worldBootOnly "CONFIG_ONLY_IN_BOOT"
           ("6.1.0" ++ NL) bootConfig ["CONFIG_SECCOMP=m"]
           "CONFIG_ONLY_IN_BOOT=y" [] "y").
  - reflexivity.
  - reflexivity.
  - vm_compute; reflexivity.
  - vm_compute; reflexivity.
  - intros l [<-|[]]; reflexivity.
  - reflexivity.
Defined.

Lemma IndexByte_none_snoc (c d : ascii) (l : string) :
  IndexByte l c = None -> d <> c ->
  IndexByte (l ++ String d "") c = None.
Proof.
  intros Hl Hd. induction l as [|x l IH]; simpl in *.
  - apply Ascii.eqb_neq in Hd. now rewrite Hd.
  - destruct (Ascii.eqb x c); [discriminate|].
    destruct (IndexByte l c); [discriminate|]. now rewrite IH.
Qed.

Lemma dropCR_snoc (l : string) : bufio.dropCR (l ++ String bufio.CR "") = l.
Proof.
  unfold bufio.dropCR. rewrite length_append. cbn [String.length].
  rewrite Nat.add_1_r, get_append_here, Ascii.eqb_refl. apply take_append.
Qed.

(** X4: A configuration written with CR LF line ends resolves like one written
    with LF: the value of a first line key=value is returned without the
    carriage return. *)
Theorem resolver_tolerates_crlf (w : World) (K V rest : string) :
  compressedSource w = Some ((K ++ "=" ++ V) ++ String bufio.CR NL ++ rest) ->
  IndexByte (K ++ "=" ++ V) bufio.LF = None ->
  (N.of_nat (String.length (K ++ "=" ++ V)) + 1 < bufio.MaxScanTokenSize)%N ->
  outcome (readKernelConfigOption K) w = Returns (V, true).
Proof.
  intros Hgz Hlf Hlen. unfold outcome.
  rewrite (resolver_compressed w K _ Hgz). cbn [snd]. f_equal.
  replace ((K ++ "=" ++ V) ++ String bufio.CR NL ++ rest)
    with (((K ++ "=" ++ V) ++ String bufio.CR "") ++ NL ++ rest)
    by (rewrite append_assoc; reflexivity).
  rewrite Lines_cons.
  - rewrite dropCR_snoc. cbn [scanConfig].
    now rewrite matchConfigLine_assignment.
  - apply IndexByte_none_snoc; [exact Hlf | discriminate].
  - rewrite length_append. cbn [String.length]. lia.
Qed.

Lemma resolver_tolerates_crlf_witness :
  outcome (readKernelConfigOption "CONFIG_SECCOMP") worldCrlf
  = Returns ("y", true).
Proof.
  apply (resolver_tolerates_crlf worldCrlf "CONFIG_SECCOMP" "y"
           ("CONFIG_AUDIT=y" ++ String bufio.CR NL)).
  - reflexivity.
  - reflexivity.
  - vm_compute; reflexivity.
Defined.

(** X5: The fallback file is named after the release without the white space
    around it: a release followed by a newline, as the kernel writes it,
    leads to /boot/config-<release>. *)
Theorem resolver_fallback_path (w : World) (key release pre post : string) :
  compressedSource w = None ->
  ReadFile w "/proc/sys/kernel/osrelease" = Ok (pre ++ release ++ post) ->
  asciiSpaces pre = true ->
  asciiSpaces post = true ->
  graphBounded release = true ->
  trace (readKernelConfigOption key) w
  = [OsOpen "/proc/config.gz";
     IoutilReadFile "/proc/sys/kernel/osrelease";
     OsOpen ("/boot/config-" ++ release)].
Proof.
  intros Hgz Hu Hpre Hpost Hrel. unfold trace.
  rewrite (resolver_fallback w key Hgz), Hu. cbn [fst].
  now rewrite (TrimSpace_padded pre release post Hpre Hpost Hrel).
Qed.

Lemma resolver_fallback_path_witness :
  trace (readKernelConfigOption "CONFIG_SECCOMP") worldBootOnly
  = [OsOpen "/proc/config.gz";
     IoutilReadFile "/proc/sys/kernel/osrelease";
     OsOpen ("/boot/config-" ++ "6.1.0")].
Proof.
  apply (resolver_fallback_path worldBootOnly "CONFIG_SECCOMP" "6.1.0" "" NL);
    reflexivity.
Defined.

(** ** More on the Seccomp probes *)

Lemma scanStatus_single (w : World) (lines : list string) :
  exists f : Event,
    scanStatus lines w = ([f], Returns tt) /\ isFinding f = true.
Proof.
  induction lines as [|line rest IH].
  - eexists. split; reflexivity.
  - destruct (strings.HasPrefix line "Seccomp:") eqn:Hp.
    + destruct (Nat.ltb (List.length (strings.Fields line)) 2) eqn:Hlen.
      * apply Nat.ltb_lt in Hlen. rewrite (scanStatus_malformed w line rest Hp Hlen).
        eexists. split; reflexivity.
      * apply Nat.ltb_ge in Hlen.
        destruct (nth_error (strings.Fields line) 1) as [tok|] eqn:Htok.
        -- rewrite (scanStatus_mode w line rest tok Hp Htok).
           eexists. split; [reflexivity|].
           destruct (String.eqb tok "0"); [reflexivity|].
           destruct (String.eqb tok "1"); [reflexivity|].
           destruct (String.eqb tok "2"); reflexivity.
        -- apply nth_error_None in Htok. lia.
    + cbn [scanStatus]. rewrite Hp. exact IH.
Qed.

(** X8: In every world [CheckSeccompStatus] makes one system call, the read of
    /proc/self/status, and emits exactly one finding. *)
Theorem seccomp_status_one_finding (w : World) :
  exists f : Event,
    trace CheckSeccompStatus w = [IoutilReadFile "/proc/self/status"; f]
    /\ isFinding f = true.
Proof.
  unfold trace.
  destruct (ReadFile w "/proc/self/status") as [data|e] eqn:Hdata.
  - rewrite (CheckSeccompStatus_readable w data Hdata).
    destruct (scanStatus_single w (bufio.Lines data)) as (f & -> & Hf).
    now exists f.
  - unfold CheckSeccompStatus. run_go. rewrite Hdata.
    eexists. split; reflexivity.
Qed.

Lemma CheckSeccompKernelSupport_findings (w : World) (data : string) :
  ReadFile w "/proc/self/status" = Ok data ->
  exists cfg : list Event,
    findings CheckSeccompKernelSupport w
    = (if strings.Contains data "Seccomp:" then
         LogPrintln "Seccomp: kernel supports Seccomp"
       else LogPrintln "Seccomp: kernel does NOT support Seccomp") :: cfg.
Proof.
  intros Hdata.
  destruct (resolver_shape w "CONFIG_SECCOMP") as (tr & val & ok & Hr & Htr).
  exists (if ok then [LogPrintf "Seccomp: kernel config CONFIG_SECCOMP=%s" [val]]
          else []).
  unfold findings, trace, CheckSeccompKernelSupport. run_go.
  rewrite Hdata, Hr.
  destruct (strings.Contains data "Seccomp:"); destruct ok;
    cbn [fst app filter isFinding negb]; rewrite filter_app, Htr; reflexivity.
Qed.

(** X9: The support probe goes by occurrence: it reports support exactly when
    "Seccomp:" occurs somewhere in the status text, at the start of a line
    or not. *)
Theorem seccomp_support_by_occurrence (w : World) (data : string) :
  ReadFile w "/proc/self/status" = Ok data ->
  (occurs "Seccomp:" data ->
   hd_error (findings CheckSeccompKernelSupport w)
   = Some (LogPrintln "Seccomp: kernel supports Seccomp"))
  /\ (~ occurs "Seccomp:" data ->
      hd_error (findings CheckSeccompKernelSupport w)
      = Some (LogPrintln "Seccomp: kernel does NOT support Seccomp")).
Proof.
  intros Hdata.
  destruct (CheckSeccompKernelSupport_findings w data Hdata) as [cfg ->].
  split; intros H.
  - apply Contains_occurs in H. now rewrite H.
  - apply Contains_false in H. now rewrite H.
Qed.

Lemma seccomp_support_by_occurrence_witness :
  hd_error (findings CheckSeccompKernelSupport worldBootOnly)
  = Some (LogPrintln "Seccomp: kernel supports Seccomp")
  /\ findings CheckSeccompStatus worldBootOnly
     = [LogPrintln
          "Seccomp: field not found in /proc/self/status (kernel may not support Seccomp)"].
Proof.
  split; [|vm_compute; reflexivity].
  apply (proj1 (seccomp_support_by_occurrence worldBootOnly
                  ("Name:" ++ TAB ++ "Seccomp:" ++ NL) eq_refl)).
  exists ("Name:" ++ TAB), NL. reflexivity.
Defined.

(** X10: The two Seccomp probes agree in one direction: whenever the mode probe
    finds the field (it reports something other than "field not found"),
    the support probe reports support. *)
Theorem seccomp_probes_agree (w : World) (data : string) :
  ReadFile w "/proc/self/status" = Ok data ->
  findings CheckSeccompStatus w
  <> [LogPrintln
        "Seccomp: field not found in /proc/self/status (kernel may not support Seccomp)"] ->
  hd_error (findings CheckSeccompKernelSupport w)
  = Some (LogPrintln "Seccomp: kernel supports Seccomp").
Proof.
  intros Hdata Hfound.
  destruct (CheckSeccompKernelSupport_findings w data Hdata) as [cfg ->].
  destruct (existsb (fun l => strings.HasPrefix l "Seccomp:") (bufio.Lines data))
    eqn:E.
  - apply existsb_exists in E as (line & Hin & Hp).
    pose proof (Lines_prefix_occurs data line "Seccomp:" Hin Hp) as Hocc.
    apply Contains_occurs in Hocc. now rewrite Hocc.
  - exfalso. apply Hfound. unfold findings, trace.
    rewrite (CheckSeccompStatus_readable w data Hdata).
    rewrite scanStatus_absent; [reflexivity|].
    intros l Hl. destruct (strings.HasPrefix l "Seccomp:") eqn:Hp; [|reflexivity].
    assert (existsb (fun l => strings.HasPrefix l "Seccomp:") (bufio.Lines data)
            = true) by (apply existsb_exists; eauto).
    congruence.
Qed.

Lemma seccomp_probes_agree_witness :
  hd_error (findings CheckSeccompKernelSupport worldContainer)
  = Some (LogPrintln "Seccomp: kernel supports Seccomp").
Proof.
  apply (seccomp_probes_agree worldContainer statusFilter eq_refl).
  vm_compute. discriminate.
Defined.

(** *** The fields of a status line *)

Lemma runesAll_ascii (c : ascii) (t : string) :
  (byte c <? 128)%Z = true ->
  runesAll (String c t) = (byte c, String c "") :: runesAll t.
Proof.
  intros H. unfold runesAll. cbn [String.length strings.runes].
  rewrite (DecodeRuneInString_ascii c t H). reflexivity.
Qed.

Lemma isAsciiGraph_spec (c : ascii) :
  isAsciiGraph c = true ->
  (byte c <? 128)%Z = true /\ unicode.IsSpace (byte c) = false.
Proof.
  unfold isAsciiGraph. intros H. apply andb_true_iff in H as [H1 H2].
  now apply negb_true_iff in H2.
Qed.

Lemma fieldsLoop_graph (a : string) :
  allGraph a = true ->
  forall (acc t : string),
    strings.fieldsLoop unicode.IsSpace (runesAll (a ++ t)) (Some acc)
    = strings.fieldsLoop unicode.IsSpace (runesAll t) (Some (acc ++ a)).
Proof.
  induction a as [|c a IH]; intros Ha acc t.
  - now rewrite append_nil_r.
  - simpl in Ha. apply andb_true_iff in Ha as [Hc Ha].
    destruct (isAsciiGraph_spec c Hc) as [Hl Hns].
    cbn [append]. rewrite (runesAll_ascii c _ Hl).
    cbn [strings.fieldsLoop]. rewrite Hns, (IH Ha).
    now rewrite append_assoc.
Qed.

Lemma fieldsLoop_graph_start (a t : string) :
  a <> "" -> allGraph a = true ->
  strings.fieldsLoop unicode.IsSpace (runesAll (a ++ t)) None
  = strings.fieldsLoop unicode.IsSpace (runesAll t) (Some a).
Proof.
  intros Hne H. destruct a as [|c a]; [now elim Hne|].
  simpl in H. apply andb_true_iff in H as [Hc Ha].
  destruct (isAsciiGraph_spec c Hc) as [Hl Hns].
  cbn [append]. rewrite (runesAll_ascii c _ Hl).
  cbn [strings.fieldsLoop]. rewrite Hns. now rewrite (fieldsLoop_graph a Ha).
Qed.

Lemma fieldsLoop_spaces (ws : string) :
  asciiSpaces ws = true ->
  forall t : string,
    strings.fieldsLoop unicode.IsSpace (runesAll (ws ++ t)) None
    = strings.fieldsLoop unicode.IsSpace (runesAll t) None.
Proof.
  induction ws as [|c ws IH]; intros Hws t; [reflexivity|].
  simpl in Hws. apply andb_true_iff in Hws as [Hc Hws].
  destruct (isAsciiSpace_IsSpace c Hc) as [Hsp Hl].
  cbn [append]. rewrite (runesAll_ascii c _ Hl).
  cbn [strings.fieldsLoop]. now rewrite Hsp, (IH Hws).
Qed.

Lemma fieldsLoop_close (c : ascii) (t acc : string) :
  isAsciiSpace c = true ->
  strings.fieldsLoop unicode.IsSpace (runesAll (String c t)) (Some acc)
  = acc :: strings.fieldsLoop unicode.IsSpace (runesAll t) None.
Proof.
  intros Hc. destruct (isAsciiSpace_IsSpace c Hc) as [Hsp Hl].
  rewrite (runesAll_ascii c _ Hl). cbn [strings.fieldsLoop]. now rewrite Hsp.
Qed.

(** The second field of a line made of a first word, ASCII white space, a
    second word, and then nothing or white space and anything. *)
Lemma Fields_second (a : string) (c : ascii) (ws b rest : string) :
  a <> "" -> allGraph a = true ->
  asciiSpaces (String c ws) = true ->
  b <> "" -> allGraph b = true ->
  (rest = "" \/ exists d r, rest = String d r /\ isAsciiSpace d = true) ->
  nth_error (strings.Fields (a ++ String c ws ++ b ++ rest)) 1 = Some b.
Proof.
  intros Ha Hga Hws Hb Hgb Hrest.
  unfold strings.Fields, strings.FieldsFunc.
  fold (runesAll (a ++ String c ws ++ b ++ rest)).
  rewrite (fieldsLoop_graph_start a _ Ha Hga).
  simpl in Hws. apply andb_true_iff in Hws as [Hc Hws].
  change (String c ws ++ b ++ rest) with (String c (ws ++ b ++ rest)).
  rewrite (fieldsLoop_close c _ _ Hc).
  rewrite (fieldsLoop_spaces ws Hws).
  rewrite (fieldsLoop_graph_start b _ Hb Hgb).
  destruct Hrest as [->|(d & r & -> & Hd)].
  - reflexivity.
  - now rewrite (fieldsLoop_close d r _ Hd).
Qed.

(** X11: The mode code is the word that follows the field name and its white
    space: the first line "Seccomp:<white space><word>", with nothing or
    white space after the word, is classified by that word. *)
Theorem seccomp_mode_follows_field_name
    (w : World) (data : string) (pre : list string) (c : ascii)
    (ws tok rest : string) (post : list string) :
  ReadFile w "/proc/self/status" = Ok data ->
  bufio.Lines data
  = (pre ++ ("Seccomp:" ++ String c ws ++ tok ++ rest)%string :: post)%list ->
  (forall l, In l pre -> strings.HasPrefix l "Seccomp:" = false) ->
  asciiSpaces (String c ws) = true ->
  tok <> "" -> allGraph tok = true ->
  (rest = "" \/ exists d r, rest = String d r /\ isAsciiSpace d = true) ->
  findings CheckSeccompStatus w = [modeFinding tok].
Proof.
  intros Hdata Hlines Hpre Hws Htok Hg Hrest. unfold findings, trace.
  rewrite (CheckSeccompStatus_readable w data Hdata), Hlines.
  rewrite (scanStatus_skip w pre _ Hpre).
  rewrite (scanStatus_mode w _ post tok).
  - unfold modeFinding.
    destruct (String.eqb tok "0"); [reflexivity|].
    destruct (String.eqb tok "1"); [reflexivity|].
    destruct (String.eqb tok "2"); reflexivity.
  - unfold strings.HasPrefix. apply prefix_append.
  - apply Fields_second; auto. discriminate.
Qed.

Lemma seccomp_mode_follows_field_name_witness :
  findings CheckSeccompStatus worldContainer = [modeFinding "2"].
Proof.
  apply (seccomp_mode_follows_field_name worldContainer statusFilter
           ["Name:" ++ TAB ++ "cat"] (ascii_of_nat 9) "" "2" ""
           ["Seccomp_filters:" ++ TAB ++ "1"]).
  - reflexivity.
  - vm_compute; reflexivity.
  - intros l [<-|[]]; reflexivity.
  - reflexivity.
  - discriminate.
  - reflexivity.
  - now left.
Defined.

(** ** More on the namespace isolation probe *)

Lemma forRange_filter {A : Type} (keep : Event -> bool) (w : World)
    (body : A -> Go unit) (g : A -> list Event) (xs : list A) :
  (forall x, filter keep (fst (body x w)) = g x
             /\ snd (body x w) = Returns tt) ->
  filter keep (fst (forRange xs body w)) = flat_map g xs.
Proof.
  intros Hbody. induction xs as [|x xs IH]; [reflexivity|].
  cbn [forRange flat_map]. unfold bind.
  destruct (Hbody x) as [Hf Hr].
  destruct (body x w) as [tr o]; cbn [fst snd] in Hf, Hr; subst o.
  destruct (forRange xs body w) as [tr' o']; cbn [fst snd] in *.
  now rewrite filter_app, Hf, IH.
Qed.

(** X12: The probe reads both links of every namespace kind, the init process's
    first, in the fixed order of the kinds and whatever the reads return:
    the same twelve system calls in every world. *)
Theorem namespace_reads_every_link (w : World) :
  calls CheckNamespaceIsolation w = flat_map kindLinks namespaceTypes.
Proof.
  unfold calls, trace, CheckNamespaceIsolation.
  match goal with
  | |- context [forRange namespaceTypes ?b] => set (body := b)
  end.
  pose proof (forRange_filter (fun e => negb (isFinding e)) w body kindLinks
                namespaceTypes) as H.
  unfold bind, log_Println, emit.
  destruct (forRange namespaceTypes body w) as [tr o]; cbn [fst snd] in *.
  cbn [app filter isFinding negb]. apply H.
  intros ns. subst body. run_go. rewrite Sprintf_init_path, Sprintf_self_path.
  unfold kindLinks.
  destruct (Readlink w ("/proc/1/ns/" ++ ns)) as [a|e];
    destruct (Readlink w ("/proc/self/ns/" ++ ns)) as [b|e'];
    try (split; reflexivity).
  destruct (String.eqb a b); split; reflexivity.
Qed.

(** ** More on the SELinux probe *)

Lemma CheckSELinux_trace (w : World) (data : string) :
  ReadFile w "/sys/fs/selinux/enforce" = Ok data ->
  trace CheckSELinux w
  = IoutilReadFile "/sys/fs/selinux/enforce" :: selinuxVerdict data
    :: IoutilReadFile "/proc/self/attr/current"
    :: selinuxLabel (ReadFile w "/proc/self/attr/current").
Proof.
  intros Hdata. unfold trace, CheckSELinux, selinuxVerdict. run_go.
  rewrite Hdata.
  destruct (String.eqb (strings.TrimSpace data) "1");
    [|destruct (String.eqb (strings.TrimSpace data) "0")];
    now destruct (ReadFile w "/proc/self/attr/current").
Qed.

Lemma CheckSELinux_findings (w : World) (data : string) :
  ReadFile w "/sys/fs/selinux/enforce" = Ok data ->
  findings CheckSELinux w
  = selinuxVerdict data :: selinuxLabel (ReadFile w "/proc/self/attr/current").
Proof.
  intros Hdata. unfold findings. rewrite (CheckSELinux_trace w data Hdata).
  unfold selinuxVerdict.
  destruct (String.eqb (strings.TrimSpace data) "1");
    [|destruct (String.eqb (strings.TrimSpace data) "0")];
    now destruct (ReadFile w "/proc/self/attr/current").
Qed.

(** X13: White space around the enforce flag does not matter: "1" with any
    ASCII white space before and after it is reported as enforcing, "0" as
    permissive. *)
Theorem selinux_enforce_padding (w : World) (pre post : string) :
  asciiSpaces pre = true ->
  asciiSpaces post = true ->
  (ReadFile w "/sys/fs/selinux/enforce" = Ok (pre ++ "1" ++ post) ->
   hd_error (findings CheckSELinux w) = Some (LogPrintln "SELinux: enforcing"))
  /\ (ReadFile w "/sys/fs/selinux/enforce" = Ok (pre ++ "0" ++ post) ->
      hd_error (findings CheckSELinux w)
      = Some (LogPrintln "SELinux: permissive (loaded but not enforcing)")).
Proof.
  intros Hpre Hpost. split; intros Hdata;
    rewrite (CheckSELinux_findings w _ Hdata); unfold selinuxVerdict.
  - now rewrite (TrimSpace_padded pre "1" post Hpre Hpost eq_refl).
  - now rewrite (TrimSpace_padded pre "0" post Hpre Hpost eq_refl).
Qed.

Lemma selinux_enforce_padding_witness :
  hd_error (findings CheckSELinux worldBootOnly)
  = Some (LogPrintln "SELinux: permissive (loaded but not enforcing)").
Proof.
  apply (proj2 (selinux_enforce_padding worldBootOnly " " NL eq_refl eq_refl)).
  reflexivity.
Defined.

(** X14: The reported label is the content of /proc/self/attr/current before
    its padding: any run of NUL and newline bytes after a text that does
    not itself end with one is cut off. *)
Theorem selinux_label_padding (w : World) (data core tail : string) :
  ReadFile w "/sys/fs/selinux/enforce" = Ok data ->
  ReadFile w "/proc/self/attr/current" = Ok (core ++ tail) ->
  allIn (NUL ++ NL) tail = true ->
  lastByteIn (NUL ++ NL) core = false ->
  exists verdict : Event,
    findings CheckSELinux w
    = [verdict; LogPrintf "SELinux: container label: %s" [core]].
Proof.
  intros Hdata Hlabel Htail Hcore.
  rewrite (CheckSELinux_findings w data Hdata), Hlabel. cbn [selinuxLabel].
  rewrite (TrimRight_core (NUL ++ NL) core tail) by (discriminate || assumption).
  eexists. reflexivity.
Qed.

Lemma selinux_label_padding_witness :
  exists verdict : Event,
    findings CheckSELinux worldBootOnly
    = [verdict; LogPrintf "SELinux: container label: %s" ["unconfined"]].
Proof.
  apply (selinux_label_padding worldBootOnly (" 0" ++ NL) "unconfined"
           (NL ++ NUL)); reflexivity.
Defined.

(** ** A line that outgrows the scanner *)





(** ** More on the AppArmor probe *)

Lemma CheckAppArmor_trace (w : World) :
  exists (tr : list Event) (val : string) (ok : bool),
    readKernelConfigOption "CONFIG_SECURITY_APPARMOR" w = (tr, Returns (val, ok))
    /\ filter isFinding tr = []
    /\ trace CheckAppArmor w
       = (tr ++ appArmorBuild (val, ok) :: IoutilReadFile "/proc/cmdline"
             :: appArmorBoot (ReadFile w "/proc/cmdline")
             ++ [IoutilReadFile "/sys/module/apparmor/parameters/enabled";
                 appArmorModule
                   (ReadFile w "/sys/module/apparmor/parameters/enabled");
                 IoutilReadFile "/proc/self/attr/current";
                 appArmorProfile (ReadFile w "/proc/self/attr/current")])%list.
Proof.
  destruct (resolver_shape w "CONFIG_SECURITY_APPARMOR")
    as (tr & val & ok & Hr & Htr).
  exists tr, val, ok. split; [exact Hr|]. split; [exact Htr|].
  unfold trace, CheckAppArmor, appArmorBuild, appArmorBoot, appArmorModule,
    appArmorProfile.
  run_go. rewrite Hr.
  destruct ok;
    (destruct (ReadFile w "/proc/cmdline") as [params|e1];
     [destruct (strings.Contains params "apparmor=1"
                || strings.Contains params "security=apparmor");
      [|destruct (strings.Contains params "apparmor=0")]|]);
    (destruct (ReadFile w "/sys/module/apparmor/parameters/enabled") as [data|e2];
     [destruct (String.eqb (strings.TrimSpace data) "Y")|]);
    (destruct (ReadFile w "/proc/self/attr/current") as [label|e3];
     [destruct (String.eqb (strings.TrimRight label (NUL ++ NL)) ""
                || String.eqb (strings.TrimRight label (NUL ++ NL)) "unconfined")
     |]);
    reflexivity.
Qed.

Lemma appArmorBuild_finding (r : string * bool) :
  isFinding (appArmorBuild r) = true.
Proof. destruct r as [val []]; reflexivity. Qed.

Lemma appArmorBoot_findings (r : result string) :
  filter isFinding (appArmorBoot r) = appArmorBoot r
  /\ filter (fun e => negb (isFinding e)) (appArmorBoot r) = [].
Proof.
  destruct r as [params|e]; [|split; reflexivity]. unfold appArmorBoot.
  destruct (strings.Contains params "apparmor=1"
            || strings.Contains params "security=apparmor");
    [|destruct (strings.Contains params "apparmor=0")]; split; reflexivity.
Qed.

Lemma appArmorModule_finding (r : result string) :
  isFinding (appArmorModule r) = true.
Proof.
  destruct r as [data|e]; [|reflexivity]. unfold appArmorModule.
  now destruct (String.eqb (strings.TrimSpace data) "Y").
Qed.

Lemma appArmorProfile_finding (r : result string) :
  isFinding (appArmorProfile r) = true.
Proof.
  destruct r as [label|e]; [|reflexivity]. unfold appArmorProfile.
  now destruct (String.eqb (strings.TrimRight label (NUL ++ NL)) ""
                || String.eqb (strings.TrimRight label (NUL ++ NL)) "unconfined").
Qed.

Lemma CheckAppArmor_findings (w : World) :
  exists r : string * bool,
    outcome (readKernelConfigOption "CONFIG_SECURITY_APPARMOR") w = Returns r
    /\ findings CheckAppArmor w
       = (appArmorBuild r :: appArmorBoot (ReadFile w "/proc/cmdline")
            ++ [appArmorModule
                  (ReadFile w "/sys/module/apparmor/parameters/enabled");
                appArmorProfile (ReadFile w "/proc/self/attr/current")])%list.
Proof.
  destruct (CheckAppArmor_trace w) as (tr & val & ok & Hr & Htr & Ht).
  exists (val, ok). unfold outcome, findings. rewrite Hr, Ht.
  split; [reflexivity|].
  rewrite filter_app, Htr. cbn [app filter isFinding].
  rewrite appArmorBuild_finding, filter_app.
  rewrite (proj1 (appArmorBoot_findings _)). cbn [filter isFinding].
  now rewrite appArmorModule_finding, appArmorProfile_finding.
Qed.

(** X15: The boot parameters are classified by occurrence, in priority order:
    "apparmor=1" or "security=apparmor" anywhere in the command line, even
    inside a longer word, gives "enabled" (with the trimmed command line);
    failing that, "apparmor=0" anywhere gives "disabled"; failing that, "no
    explicit parameter". *)
Theorem apparmor_boot_parameters (w : World) (cmdline : string) :
  ReadFile w "/proc/cmdline" = Ok cmdline ->
  (occurs "apparmor=1" cmdline \/ occurs "security=apparmor" cmdline ->
   nth_error (findings CheckAppArmor w) 1
   = Some (LogPrintf "AppArmor: enabled via boot parameters (%s)"
                     [strings.TrimSpace cmdline]))
  /\ (~ occurs "apparmor=1" cmdline -> ~ occurs "security=apparmor" cmdline ->
      (occurs "apparmor=0" cmdline ->
       nth_error (findings CheckAppArmor w) 1
       = Some (LogPrintln "AppArmor: disabled via boot parameter apparmor=0"))
      /\ (~ occurs "apparmor=0" cmdline ->
          nth_error (findings CheckAppArmor w) 1
          = Some (LogPrintln
                    "AppArmor: no explicit AppArmor boot parameter found"))).
Proof.
  intros Hcmd. destruct (CheckAppArmor_findings w) as (r & _ & ->).
  rewrite Hcmd. cbn [appArmorBoot app nth_error]. split.
  - intros [H|H]; apply Contains_occurs in H; rewrite H;
      [reflexivity | now rewrite orb_true_r].
  - intros H1 H2. apply Contains_false in H1, H2. rewrite H1, H2.
    split; intros H0; [apply Contains_occurs in H0 | apply Contains_false in H0];
      now rewrite H0.
Qed.

Lemma apparmor_boot_parameters_witness :
  nth_error (findings CheckAppArmor worldBootOnly) 1
  = Some (LogPrintf "AppArmor: enabled via boot parameters (%s)"
            [strings.TrimSpace
               ("root=/dev/sda1 apparmor=0 security=apparmor" ++ NL)]).
Proof.
  apply (proj1 (apparmor_boot_parameters worldBootOnly
                  ("root=/dev/sda1 apparmor=0 security=apparmor" ++ NL)
                  eq_refl)).
  right. exists "root=/dev/sda1 apparmor=0 ", NL. reflexivity.
Defined.

(** X16: The runtime flag "Y" counts with any ASCII white space around it: the
    module is then reported as enabled. *)
Theorem apparmor_module_padding (w : World) (pre post : string) :
  asciiSpaces pre = true ->
  asciiSpaces post = true ->
  ReadFile w "/sys/module/apparmor/parameters/enabled" = Ok (pre ++ "Y" ++ post) ->
  exists (front : list Event) (p : Event),
    findings CheckAppArmor w
    = (front ++ [LogPrintln "AppArmor: module is enabled (runtime)"; p])%list.
Proof.
  intros Hpre Hpost Hdata. destruct (CheckAppArmor_findings w) as (r & _ & ->).
  rewrite Hdata. cbn [appArmorModule].
  rewrite (TrimSpace_padded pre "Y" post Hpre Hpost eq_refl).
  exists (appArmorBuild r :: appArmorBoot (ReadFile w "/proc/cmdline")).
  eexists. reflexivity.
Qed.

Lemma apparmor_module_padding_witness :
  exists (front : list Event) (p : Event),
    findings CheckAppArmor worldBootOnly
    = (front ++ [LogPrintln "AppArmor: module is enabled (runtime)"; p])%list.
Proof.
  apply (apparmor_module_padding worldBootOnly "" NL); reflexivity.
Defined.

(** X17: The active profile is the content of /proc/self/attr/current before
    its padding of NUL and newline bytes: empty or "unconfined" is reported
    as unconfined, any other text as the profile's name. *)
Theorem apparmor_profile_padding (w : World) (core tail : string) :
  ReadFile w "/proc/self/attr/current" = Ok (core ++ tail) ->
  allIn (NUL ++ NL) tail = true ->
  lastByteIn (NUL ++ NL) core = false ->
  exists (front : list Event) (p : Event),
    findings CheckAppArmor w = (front ++ [p])%list
    /\ (core = "" \/ core = "unconfined" ->
        p = LogPrintln "AppArmor: container is unconfined (no profile attached)")
    /\ (core <> "" -> core <> "unconfined" ->
        p = LogPrintf "AppArmor: container profile: %s" [core]).
Proof.
  intros Hlabel Htail Hcore. destruct (CheckAppArmor_findings w) as (r & _ & ->).
  rewrite Hlabel. cbn [appArmorProfile].
  rewrite (TrimRight_core (NUL ++ NL) core tail) by (discriminate || assumption).
  exists (appArmorBuild r :: appArmorBoot (ReadFile w "/proc/cmdline")
            ++ [appArmorModule
                  (ReadFile w "/sys/module/apparmor/parameters/enabled")])%list.
  eexists. split; [|split].
  - cbn [app]. rewrite <- app_assoc. reflexivity.
  - intros [-> | ->]; reflexivity.
  - intros H1 H2. apply String.eqb_neq in H1, H2. now rewrite H1, H2.
Qed.

Lemma apparmor_profile_padding_witness :
  exists (front : list Event) (p : Event),
    findings CheckAppArmor worldBootOnly = (front ++ [p])%list
    /\ p = LogPrintln "AppArmor: container is unconfined (no profile attached)".
Proof.
  destruct (apparmor_profile_padding worldBootOnly "unconfined" (NL ++ NUL))
    as (front & p & Hf & Hun & _); try reflexivity.
  exists front, p. split; [exact Hf|]. apply Hun. now right.
Defined.

(** X18: An option that the configuration explicitly switches off is reported
    with the value "n"; "kernel config not available" is kept for an option
    that the resolver does not find. *)
Theorem apparmor_disabled_is_not_absent (w : World) :
  (forall (gz : string) (pre post : list string),
     compressedSource w = Some gz ->
     bufio.Lines gz
     = (pre ++ "# CONFIG_SECURITY_APPARMOR is not set" :: post)%list ->
     (forall l, In l pre ->
                snd (matchConfigLine l "CONFIG_SECURITY_APPARMOR") = false) ->
     hd_error (findings CheckAppArmor w)
     = Some (LogPrintf "AppArmor: kernel config CONFIG_SECURITY_APPARMOR=%s"
                       ["n"]))
  /\ (forall val,
        outcome (readKernelConfigOption "CONFIG_SECURITY_APPARMOR") w
        = Returns (val, false) ->
        hd_error (findings CheckAppArmor w)
        = Some (LogPrintln "AppArmor: kernel config not available")).
Proof.
  destruct (CheckAppArmor_findings w) as (r & Hr & ->). split.
  - intros gz pre post Hgz Hlines Hpre.
    assert (Hm : matchConfigLine "# CONFIG_SECURITY_APPARMOR is not set"
                   "CONFIG_SECURITY_APPARMOR" = ("n", true))
      by exact (matchConfigLine_not_set "CONFIG_SECURITY_APPARMOR").
    unfold outcome in Hr. rewrite (resolver_compressed w _ gz Hgz), Hlines in Hr.
    rewrite (scanConfig_first_match "CONFIG_SECURITY_APPARMOR" pre _ post "n"
               Hpre Hm) in Hr.
    cbn [snd] in Hr. injection Hr as <-. reflexivity.
  - intros val Hval. rewrite Hval in Hr. injection Hr as <-. reflexivity.
Qed.

Lemma apparmor_disabled_is_not_absent_witness :
  hd_error (findings CheckAppArmor worldContainer)
  = Some (LogPrintf "AppArmor: kernel config CONFIG_SECURITY_APPARMOR=%s" ["n"])
  /\ hd_error (findings CheckAppArmor worldNoConfig)
     = Some (LogPrintln "AppArmor: kernel config not available").
Proof.
  split.
  - apply (proj1 (apparmor_disabled_is_not_absent worldContainer) gzConfig
             ["# Automatically generated file"; "CONFIG_SECCOMP=y"] []).
    + reflexivity.
    + vm_compute; reflexivity.
    + intros l [<-|[<-|[]]]; reflexivity.
  - apply (proj2 (apparmor_disabled_is_not_absent worldNoConfig) "").
    vm_compute; reflexivity.
Defined.

(** X19: Every source is consulted in every world: after the resolver's calls
    the probe reads /proc/cmdline, the module's flag and
    /proc/self/attr/current, in this order, whichever of them fail. *)
Theorem apparmor_reads_every_source (w : World) :
  calls CheckAppArmor w
  = (calls (readKernelConfigOption "CONFIG_SECURITY_APPARMOR") w
       ++ [IoutilReadFile "/proc/cmdline";
           IoutilReadFile "/sys/module/apparmor/parameters/enabled";
           IoutilReadFile "/proc/self/attr/current"])%list.
Proof.
  destruct (CheckAppArmor_trace w) as (tr & val & ok & Hr & Htr & Ht).
  unfold calls. rewrite Ht. unfold trace. rewrite Hr. cbn [fst].
  rewrite filter_app. f_equal. cbn [filter].
  rewrite appArmorBuild_finding. cbn [negb isFinding filter].
  rewrite filter_app, (proj2 (appArmorBoot_findings _)). cbn [app filter isFinding negb].
  now rewrite appArmorModule_finding, appArmorProfile_finding.
Qed.

(** ** The process lister *)

Lemma printProcesses_nth (ps : list ps.Process) :
  forall (i : nat) (p : ps.Process),
    nth_error ps i = Some p ->
    nth_error (ps.printProcesses ps) i
    = Some (ps.FmtPrintf ("%v" ++ TAB ++ "%v" ++ TAB ++ "%v" ++ TAB ++ "%v" ++ NL)
              [fst (ps.Username p); ps.itoa (ps.Pid p);
               ps.itoa (fst (ps.Ppid p)); fst (ps.Exe p)]).
Proof.
  induction ps as [|q ps IH]; intros i p Hi; [now destruct i|].
  cbn [ps.printProcesses].
  destruct (ps.Exe q) as [pexe e1] eqn:E1, (ps.Ppid q) as [ppid e2] eqn:E2,
           (ps.Username q) as [user e3] eqn:E3.
  destruct i as [|i]; cbn [nth_error] in *.
  - injection Hi as <-. now rewrite E1, E2, E3.
  - now apply IH.
Qed.

Lemma printProcesses_length (ps : list ps.Process) :
  List.length (ps.printProcesses ps) = List.length ps.
Proof.
  induction ps as [|q ps IH]; [reflexivity|]. cbn [ps.printProcesses].
  destruct (ps.Exe q), (ps.Ppid q), (ps.Username q). simpl. now rewrite IH.
Qed.

(** X20: [RunPs] prints one line per process, in the order of the list, with
    the columns user, pid, parent pid and executable, using whatever value
    an accessor returned even when it also returned an error; it exits (with
    status 1 and no process line) only when the process list itself cannot
    be had. *)
Theorem RunPs_lists_every_process (processes : result (list ps.Process)) :
  (forall ps,
     processes = Ok ps ->
     snd (ps.RunPs processes) = ps.Returns
     /\ List.length (fst (ps.RunPs processes)) = List.length ps
     /\ forall (i : nat) (p : ps.Process),
          nth_error ps i = Some p ->
          nth_error (fst (ps.RunPs processes)) i
          = Some (ps.FmtPrintf
                    ("%v" ++ TAB ++ "%v" ++ TAB ++ "%v" ++ TAB ++ "%v" ++ NL)
                    [fst (ps.Username p); ps.itoa (ps.Pid p);
                     ps.itoa (fst (ps.Ppid p)); fst (ps.Exe p)]))
  /\ (forall e,
        processes = Err e ->
        ps.RunPs processes
        = ([ps.LogFatal "get process list failed."], ps.Exits 1%Z)).
Proof.
  split.
  - intros ps ->. cbn [ps.RunPs fst snd].
    split; [reflexivity|]. split; [apply printProcesses_length|].
    apply printProcesses_nth.
  - now intros e ->.
Qed.

Lemma RunPs_lists_every_process_witness :
  fst (ps.RunPs
         (Ok [{| ps.Pid := 1%Z; ps.Exe := ("/sbin/init", None);
                 ps.Ppid := (0%Z, None); ps.Username := ("root", None) |};
              {| ps.Pid := 4026%Z; ps.Exe := ("", Some "permission denied");
                 ps.Ppid := (1%Z, None); ps.Username := ("www-data", None) |}]))
  = [ps.FmtPrintf ("%v" ++ TAB ++ "%v" ++ TAB ++ "%v" ++ TAB ++ "%v" ++ NL)
       ["root"; "1"; "0"; "/sbin/init"];
     ps.FmtPrintf ("%v" ++ TAB ++ "%v" ++ TAB ++ "%v" ++ TAB ++ "%v" ++ NL)
       ["www-data"; "4026"; "1"; ""]].
Proof.
  set (p1 := {| ps.Pid := 1%Z; ps.Exe := ("/sbin/init", None);
                ps.Ppid := (0%Z, None); ps.Username := ("root", None) |}).
  set (p2 := {| ps.Pid := 4026%Z; ps.Exe := ("", Some "permission denied");
                ps.Ppid := (1%Z, None); ps.Username := ("www-data", None) |}).
  destruct (proj1 (RunPs_lists_every_process (Ok [p1; p2])) [p1; p2] eq_refl)
    as (_ & Hlen & Hnth).
  pose proof (Hnth 0 p1 eq_refl) as H0. pose proof (Hnth 1 p2 eq_refl) as H1.
  destruct (fst (ps.RunPs (Ok [p1; p2]))) as [|a [|b [|c l]]];
    try discriminate Hlen.
  cbn [nth_error] in H0, H1. injection H0 as ->. injection H1 as ->.
  reflexivity.
Defined.
